(** * Highcharts for Python: chart container and arc-diagram data points

    A shallow embedding of [highcharts/chart.py] ([Chart]) and of
    [highcharts_core/options/series/data/arcdiagram.py] ([ArcDiagramData]),
    with the properties of the deep option merge ([Chart._copy_dict_key]),
    of the JavaScript-literal serialisation, of the dict/kwargs mappings, of
    the validating setters and of [ArcDiagramData.from_list]. *)

From Stdlib Require Import String Ascii List ZArith Bool Arith Lia Floats.
Import ListNotations.
Local Open Scope string_scope.
Local Open Scope list_scope.


(** ** Python values *)

(** The values that travel through the modelled code. A [dict] keeps its
    items in insertion order, as Python does; its keys are strings (the
    configuration trees are JSON-shaped). A [str] is given by its characters,
    one [ascii] each: text outside ASCII is not modelled. [PList] stands for
    [list] and [tuple]. [PObj] is an instance of a user class, given by the names of its
    class and base classes and by its attributes; it is a plain instance: it is
    truthy, and has no [__iter__], [__len__], [__getitem__] or [get]. *)
#[local] Unset Elimination Schemes.
Inductive pyval : Type :=
| PNone
| PBool (b : bool)
| PInt (z : Z)
| PFloat (f : float)
| PStr (s : string)
| PList (l : list pyval)
| PDict (d : list (string * pyval))
| PObj (classes : list string) (attrs : list (string * pyval)).
#[local] Set Elimination Schemes.

Definition dict : Type := list (string * pyval).

(** Exceptions raised by the modelled code and by the calls it makes. *)
Inductive exn : Type :=
| KeyError
| AttributeError
| TypeError
| EmptyValueError
| CannotCoerceError
| HighchartsValueError.

(** A call either returns or raises. *)
Inductive result (A : Type) : Type :=
| Ok (a : A)
| Raise (e : exn).

Arguments Ok {A} a.
Arguments Raise {A} e.

Definition bind {A B : Type} (r : result A) (k : A -> result B) : result B :=
  match r with
  | Ok a => k a
  | Raise e => Raise e
  end.

Notation "x <- r ;; k" := (bind r (fun x => k))
  (at level 61, r at next level, right associativity).

(** Python truthiness ([bool(v)]). *)
Definition truthy (v : pyval) : bool :=
  match v with
  | PNone => false
  | PBool b => b
  | PInt z => negb (z =? 0)%Z
  | PFloat f => negb (PrimFloat.eqb f 0%float)
  | PStr s => negb (s =? "")
  | PList l => match l with [] => false | _ :: _ => true end
  | PDict d => match d with [] => false | _ :: _ => true end
  | PObj _ _ => true
  end.

(** [x or y]. *)
Definition py_or (x y : pyval) : pyval := if truthy x then x else y.

(** [d.get(key, default)] on a dict. *)
Fixpoint dict_lookup (key : string) (d : dict) : option pyval :=
  match d with
  | [] => None
  | (k, v) :: rest => if k =? key then Some v else dict_lookup key rest
  end.

Definition dict_get (d : dict) (key : string) (default : pyval) : pyval :=
  match dict_lookup key d with
  | Some v => v
  | None => default
  end.

(** [d[key] = v]: an existing key keeps its place, a new key goes last. *)
Fixpoint dict_set (key : string) (v : pyval) (d : dict) : dict :=
  match d with
  | [] => [(key, v)]
  | (k, w) :: rest =>
      if k =? key then (k, v) :: rest else (k, w) :: dict_set key v rest
  end.

Definition dict_keys (d : dict) : list string := map fst d.

(** The characters of a string, each as a one-character string. *)
Fixpoint chars (s : string) : list pyval :=
  match s with
  | EmptyString => []
  | String c rest => PStr (String c EmptyString) :: chars rest
  end.

(** [iter(v)]: what a [for] loop or a comprehension walks over. *)
Definition py_iter (v : pyval) : result (list pyval) :=
  match v with
  | PList l => Ok l
  | PDict d => Ok (map PStr (dict_keys d))
  | PStr s => Ok (chars s)
  | _ => Raise TypeError
  end.

(** [len(v)]. *)
Definition py_len (v : pyval) : result nat :=
  match v with
  | PList l => Ok (List.length l)
  | PDict d => Ok (List.length d)
  | PStr s => Ok (String.length s)
  | _ => Raise TypeError
  end.

(** [[x for x in v]]. *)
Definition list_copy (v : pyval) : result pyval :=
  l <- py_iter v ;; Ok (PList l).

(** [other.get(key, None)]: only a dict has the method. *)
Definition py_get (other : pyval) (key : string) : result pyval :=
  match other with
  | PDict d => Ok (dict_get d key PNone)
  | _ => Raise AttributeError
  end.

(** [isinstance(v, cls)] for a user class named [cls]. *)
Definition isinstance (v : pyval) (cls : string) : bool :=
  match v with
  | PObj classes _ => existsb (String.eqb cls) classes
  | _ => false
  end.

(** The height of a value: the recursion measure of the deep merge. *)
Fixpoint height (v : pyval) : nat :=
  match v with
  | PList l => S (fold_right (fun x n => Nat.max (height x) n) 0 l)
  | PDict d => S (fold_right (fun kv n => Nat.max (height (snd kv)) n) 0 d)
  | PObj _ a => S (fold_right (fun kv n => Nat.max (height (snd kv)) n) 0 a)
  | _ => 0
  end.

(** ** The validation library

    [validators] and [checkers] belong to the third-party package
    [validator_collection], which the modelled classes import. They are
    embedded with the options the modelled code passes and every other option
    at its default. *)

Module validators.

(** [validators.numeric(value, allow_empty = allow_empty)]. Only [None] is
    empty; a [str] goes through [validators.float_] (Python's [float()], the
    parameter [float_]) and a failure there is a [CannotCoerceError]; an [int],
    [bool] or [float] is returned as it is; a list, a dict and a plain
    instance cannot be coerced. The library returns a [Decimal] and a
    [Fraction] as they are as well: these numbers are not among the modelled
    values. *)
Definition numeric (float_ : string -> option float) (value : pyval)
    (allow_empty : bool) : result pyval :=
  match value with
  | PNone => if allow_empty then Ok PNone else Raise EmptyValueError
  | PStr s =>
      match float_ s with
      | Some f => Ok (PFloat f)
      | None => Raise CannotCoerceError
      end
  | PBool _ | PInt _ | PFloat _ => Ok value
  | _ => Raise CannotCoerceError
  end.

(** [validators.string(value, allow_empty = allow_empty)]: every falsy value
    is empty ([if not value]); a non-empty [str] is returned as it is; nothing
    is coerced. *)
Definition string (value : pyval) (allow_empty : bool) : result pyval :=
  if negb (truthy value) then
    if allow_empty then Ok PNone else Raise EmptyValueError
  else
    match value with
    | PStr _ => Ok value
    | _ => Raise CannotCoerceError
    end.

End validators.

Module checkers.

(** The names of the class of a value and of its base classes. *)
Definition class_names (v : pyval) : list string :=
  match v with
  | PNone => ["NoneType"; "object"]
  | PBool _ => ["bool"; "int"; "object"]
  | PInt _ => ["int"; "object"]
  | PFloat _ => ["float"; "object"]
  | PStr _ => ["str"; "object"]
  | PList _ => ["list"; "object"]
  | PDict _ => ["dict"; "object"]
  | PObj classes _ => classes
  end.

(** [checkers.is_type(obj, type_)] for a class name [type_]. *)
Definition is_type (obj : pyval) (type_ : string) : bool :=
  existsb (String.eqb type_) (class_names obj).

(** [checkers.is_string(value)]: [None] is no string, the empty string is
    one, and any other value is one when [validators.string] takes it. *)
Definition is_string (value : pyval) : bool :=
  match value with
  | PNone => false
  | PStr EmptyString => true
  | _ =>
      match validators.string value false with
      | Ok _ => true
      | Raise _ => false
      end
  end.

(** [checkers.is_numeric(value)]. *)
Definition is_numeric (float_ : string -> option float) (value : pyval) : bool :=
  match validators.numeric float_ value false with
  | Ok _ => true
  | Raise _ => false
  end.

(** [checkers.is_dict(value)]: a dict, or a string that [validators.dict]
    parses into one (the parameter [json_dict]). *)
Definition is_dict (json_dict : string -> bool) (value : pyval) : bool :=
  match value with
  | PDict _ => true
  | PStr s => json_dict s
  | _ => false
  end.

(** [checkers.is_iterable(value)], with [forbid_literals = (str, bytes)]. *)
Definition is_iterable (value : pyval) : bool :=
  match value with
  | PList _ | PDict _ => true
  | _ => false
  end.

(** [checkers.is_iterable(value, forbid_literals = (str, bytes, dict, UserDict))]. *)
Definition is_iterable_no_literals (value : pyval) : bool :=
  match value with
  | PList _ => true
  | _ => false
  end.

End checkers.

(** ** [highcharts/chart.py]: the deep option merge *)

Module Chart.

Section DeepMerge.

(** [validator_collection.checkers.are_dicts_equivalent] answers [False] unless
    both arguments are dicts; the comparison of two dicts is a parameter. *)
Variable dicts_equivalent : dict -> dict -> bool.

Definition are_dicts_equivalent (a b : pyval) : bool :=
  match a, b with
  | PDict x, PDict y => dicts_equivalent x y
  | _, _ => false
  end.

(** [kwargs.get('preserve_data', True)]. *)
Definition preserve_data_of (kwargs : dict) : pyval :=
  dict_get kwargs "preserve_data" (PBool true).

(** The inner loop of the series branch: the first item of [other_value]
    equivalent to [original_item]. *)
Fixpoint find_match (original_item : pyval) (others : list pyval) : option pyval :=
  match others with
  | [] => None
  | other_item :: rest =>
      if are_dicts_equivalent original_item other_item
      then Some other_item
      else find_match original_item rest
  end.

(** The first loop of the series branch: [(matched_series, new_series)]. *)
Fixpoint match_series (originals others : list pyval)
  : list (pyval * pyval) * list pyval :=
  match originals with
  | [] => ([], [])
  | original_item :: rest =>
      let '(matched_series, new_series) := match_series rest others in
      match find_match original_item others with
      | Some other_item => ((original_item, other_item) :: matched_series, new_series)
      | None => (matched_series, original_item :: new_series)
      end
  end.

(** [for subkey in original_value: new_value[subkey] = copy(subkey, original_value, other_value)],
    where [copy] is the recursive call; [None] when the recursion is cut short. *)
Fixpoint copy_subkeys (copy : string -> dict -> pyval -> option (result pyval))
    (subkeys : list string) (original_value : dict) (other_value : pyval)
    (new_value : dict) : option (result dict) :=
  match subkeys with
  | [] => Some (Ok new_value)
  | subkey :: rest =>
      match copy subkey original_value other_value with
      | None => None
      | Some (Raise e) => Some (Raise e)
      | Some (Ok new_key_value) =>
          copy_subkeys copy rest original_value other_value
            (dict_set subkey new_key_value new_value)
      end
  end.

(** The loop that rebuilds one matched series item: the dict under
    construction, [new_item], is itself what the recursive call receives as
    [other]. *)
Fixpoint copy_into_new_item (copy : string -> dict -> pyval -> option (result pyval))
    (subkeys : list string) (original_item : dict) (new_item : dict)
  : option (result dict) :=
  match subkeys with
  | [] => Some (Ok new_item)
  | subkey :: rest =>
      match copy subkey original_item (PDict new_item) with
      | None => None
      | Some (Raise e) => Some (Raise e)
      | Some (Ok new_item_value) =>
          copy_into_new_item copy rest original_item
            (dict_set subkey new_item_value new_item)
      end
  end.

(** The second loop of the series branch: [updated_series]. *)
Fixpoint update_matched (copy : string -> dict -> pyval -> option (result pyval))
    (matched_series : list (pyval * pyval)) : option (result (list pyval)) :=
  match matched_series with
  | [] => Some (Ok [])
  | (original_item, _) :: rest =>
      match original_item with
      | PDict item =>
          match copy_into_new_item copy (dict_keys item) item [] with
          | None => None
          | Some (Raise e) => Some (Raise e)
          | Some (Ok new_item) =>
              match update_matched copy rest with
              | None => None
              | Some (Raise e) => Some (Raise e)
              | Some (Ok updated) => Some (Ok (PDict new_item :: updated))
              end
          end
      | _ => Some (Raise TypeError)
      end
  end.

(** [Chart._copy_dict_key(key, original, other, overwrite, **kwargs)]. The
    recursion is on a counter: [None] means the counter ran out. *)
Fixpoint _copy_dict_key (fuel : nat) (key : string) (original : dict)
    (other : pyval) (overwrite : bool) (kwargs : dict) {struct fuel}
  : option (result pyval) :=
  match fuel with
  | O => None
  | S fuel' =>
    let preserve_data := truthy (preserve_data_of kwargs) in
    let copy := fun subkey original' other' =>
      _copy_dict_key fuel' subkey original' other' overwrite kwargs in
    match dict_lookup key original with
    | None => Some (Raise KeyError)
    | Some original_value =>
      match py_get other key with
      | Raise e => Some (Raise e)
      | Ok other_value =>
        if (key =? "data") && preserve_data then Some (Ok other_value)
        else if (key =? "points") && preserve_data then Some (Ok other_value)
        else if (key =? "series") && preserve_data then
          if negb (truthy other_value) then Some (list_copy original_value)
          else
            match py_len other_value with
            | Raise e => Some (Raise e)
            | Ok len_other =>
              match py_len original_value with
              | Raise e => Some (Raise e)
              | Ok len_original =>
                if negb (len_other =? len_original)%nat then
                  match py_iter original_value, py_iter other_value with
                  | Ok originals, Ok others =>
                      let '(matched_series, new_series) :=
                        match_series originals others in
                      match update_matched copy matched_series with
                      | None => None
                      | Some (Raise e) => Some (Raise e)
                      | Some (Ok updated_series) =>
                          Some (Ok (PList (updated_series ++ new_series)))
                      end
                  | Raise e, _ => Some (Raise e)
                  | _, Raise e => Some (Raise e)
                  end
                else Some (Ok PNone)
              end
            end
        else
          match original_value with
          | PDict d =>
              match copy_subkeys copy (dict_keys d) d other_value [] with
              | None => None
              | Some (Raise e) => Some (Raise e)
              | Some (Ok new_value) => Some (Ok (PDict new_value))
              end
          | _ =>
              if checkers.is_iterable_no_literals original_value then
                if overwrite then Some (list_copy original_value)
                else Some (Ok other_value)
              else if truthy other_value && negb overwrite then Some (Ok other_value)
              else Some (Ok original_value)
          end
      end
    end
  end.

End DeepMerge.

(** *** The chart object *)

(** A [Chart] instance: its four private attributes. *)
Record t : Type := mk {
  _callback : pyval;
  _container : pyval;
  _options : pyval;
  _variable_name : pyval
}.

(** The property getters. *)
Definition callback (self : t) : pyval := _callback self.
Definition options (self : t) : pyval := _options self.
Definition container (self : t) : pyval := _container self.
Definition variable_name (self : t) : pyval := _variable_name self.

(** The setter of [container]: [self._container = validators.string(value, allow_empty = True)]. *)
Definition set_container (self : t) (value : pyval) : result t :=
  validated <- validators.string value true ;;
  Ok {| _callback := _callback self;
        _container := validated;
        _options := _options self;
        _variable_name := _variable_name self |}.

(** [Chart._get_kwargs_from_dict(as_dict)]. *)
Definition _get_kwargs_from_dict (as_dict : dict) : dict :=
  [ ("callback", dict_get as_dict "callback" PNone);
    ("container", py_or (dict_get as_dict "container" PNone)
                        (dict_get as_dict "renderTo" PNone));
    ("options", py_or (dict_get as_dict "options" PNone)
                      (dict_get as_dict "userOptions" PNone));
    ("variable_name", py_or (dict_get as_dict "variable_name" PNone)
                            (dict_get as_dict "variableName" PNone)) ].

(** [Chart._to_untrimmed_dict(self)]. *)
Definition _to_untrimmed_dict (self : t) : dict :=
  [ ("callback", callback self);
    ("container", container self);
    ("userOptions", options self) ].

(** *** Serialisation to a JavaScript literal *)

(** The separator [',\n']. *)
Definition separator : string := String "," (String (ascii_of_nat 10) EmptyString).

(** One [open(filename, 'w', encoding = encoding).write(text)]. *)
Record file_write : Type := mk_write {
  write_path : pyval;
  write_encoding : string;
  write_text : string
}.

Section Serialisation.

(** [str(v)] of a value that is not a [str]. *)
Variable py_str : pyval -> string.
(** [serialize_to_js_literal(item, encoding = encoding)]. *)
Variable serialize_to_js_literal : pyval -> string -> option string.
(** [obj.to_js_literal(encoding = encoding)] of an options or callback object. *)
Variable method_to_js_literal : pyval -> string -> pyval.
(** [validators.path(filename)]. *)
Variable validators_path : pyval -> result pyval.

(** What an f-string puts for [{v}]. *)
Definition format_value (v : pyval) : string :=
  match v with
  | PStr s => s
  | _ => py_str v
  end.

Definition nonempty (s : string) : bool := negb (s =? "").

(** [Chart.to_js_literal(self, filename, encoding)]: the string returned and
    the file writes performed. *)
Definition to_js_literal (self : t) (filename : pyval) (encoding : string)
  : result (string * list file_write) :=
  filename <- (if truthy filename then validators_path filename else Ok filename) ;;
  let untrimmed := _to_untrimmed_dict self in
  let as_dict :=
    fold_left (fun (as_dict : dict) (entry : string * pyval) =>
                 match serialize_to_js_literal (snd entry) encoding with
                 | Some serialized => dict_set (fst entry) (PStr serialized) as_dict
                 | None => as_dict
                 end) untrimmed [] in
  let signature_elements := 0 in
  let '(container_as_str, signature_elements) :=
    if truthy (container self)
    then (("renderTo = '" ++ format_value (container self) ++ "'")%string,
          signature_elements + 1)
    else ("", signature_elements) in
  let '(options_as_str, signature_elements) :=
    if truthy (options self)
    then (("options = " ++ format_value (method_to_js_literal (options self) encoding))%string,
          signature_elements + 1)
    else ("", signature_elements) in
  let '(callback_as_str, signature_elements) :=
    if truthy (callback self)
    then (("callback = " ++ format_value (method_to_js_literal (callback self) encoding))%string,
          signature_elements + 1)
    else ("", signature_elements) in
  let signature := "new Highcharts.chart(" in
  let signature :=
    if nonempty container_as_str then
      let signature := (signature ++ container_as_str)%string in
      if (1 <? signature_elements)%nat then (signature ++ separator)%string else signature
    else signature in
  let signature :=
    if nonempty options_as_str then
      let signature := (signature ++ options_as_str)%string in
      if (1 <? signature_elements)%nat then (signature ++ separator)%string else signature
    else signature in
  let signature :=
    if nonempty callback_as_str then (signature ++ callback_as_str)%string else signature in
  let signature := (signature ++ ");")%string in
  let prefix :=
    if truthy (variable_name self)
    then ("var " ++ format_value (variable_name self) ++ " = ")%string
    else "" in
  let as_str := (prefix ++ signature)%string in
  Ok (as_str,
      if truthy filename then [mk_write filename encoding as_str] else []).

End Serialisation.

(** *** Export through an Export Server *)

(** The call [download_chart] ends in, with the keyword arguments it passes. *)
Inductive export_call : Type :=
| ExportServer_get_chart (kwargs : dict)
| request_chart (server_instance : pyval) (kwargs : dict).

(** [Chart.download_chart(self, filename, auth_user, auth_password, timeout,
    server_instance, **kwargs)]. *)
Definition download_chart (self : t)
    (filename auth_user auth_password timeout server_instance : pyval)
    (kwargs : dict) : result export_call :=
  if negb (truthy server_instance) then
    Ok (ExportServer_get_chart
          ([ ("filename", filename);
             ("auth_user", auth_user);
             ("auth_password", auth_password);
             ("timeout", timeout) ] ++ kwargs))
  else if negb (isinstance server_instance "ExportServer") then
    Raise HighchartsValueError
  else
    Ok (request_chart server_instance
          [ ("filename", filename);
            ("auth_user", auth_user);
            ("auth_password", auth_password);
            ("timeout", timeout) ]).

End Chart.

(** ** [highcharts_core/options/series/data/arcdiagram.py] *)

Module DataBase.

(** The attributes a data point inherits from [DataBase], as
    [ArcDiagramData._to_untrimmed_dict] reads them. *)
Record t : Type := mk {
  accessibility : pyval;
  class_name : pyval;
  color : pyval;
  color_index : pyval;
  custom : pyval;
  description : pyval;
  events : pyval;
  id : pyval;
  label_rank : pyval;
  name : pyval;
  selected : pyval
}.

End DataBase.

Module ArcDiagramData.

(** An [ArcDiagramData] instance: its own three attributes and the inherited ones. *)
Record t : Type := mk {
  _from_ : pyval;
  _to : pyval;
  _weight : pyval;
  base : DataBase.t
}.

(** The property getters. *)
Definition from_ (self : t) : pyval := _from_ self.
Definition to (self : t) : pyval := _to self.
Definition weight (self : t) : pyval := _weight self.

(** A member of the collection [from_list] returns: an item kept as it was
    given, or an instance built by the class. *)
Inductive point : Type :=
| Given (item : pyval)
| Built (as_obj : t).

(** [ArcDiagramData._get_supported_dimensions()]. *)
Definition _get_supported_dimensions : list nat := [1; 3].

(** [ArcDiagramData._get_props_from_array(length)]. *)
Definition _get_props_from_array (length : option nat) : list string :=
  ["from_"; "to"; "weight"].

(** [ArcDiagramData._get_kwargs_from_dict(as_dict)]. *)
Definition _get_kwargs_from_dict (as_dict : dict) : dict :=
  [ ("accessibility", dict_get as_dict "accessibility" PNone);
    ("class_name", dict_get as_dict "className" PNone);
    ("color", dict_get as_dict "color" PNone);
    ("color_index", dict_get as_dict "colorIndex" PNone);
    ("custom", dict_get as_dict "custom" PNone);
    ("description", dict_get as_dict "description" PNone);
    ("events", dict_get as_dict "events" PNone);
    ("id", dict_get as_dict "id" PNone);
    ("label_rank", dict_get as_dict "labelrank" PNone);
    ("name", dict_get as_dict "name" PNone);
    ("selected", dict_get as_dict "selected" PNone);
    ("from_", dict_get as_dict "from" PNone);
    ("to", dict_get as_dict "to" PNone);
    ("weight", dict_get as_dict "weight" PNone) ].

(** [ArcDiagramData._to_untrimmed_dict(self)]. *)
Definition _to_untrimmed_dict (self : t) : dict :=
  [ ("from", from_ self);
    ("to", to self);
    ("weight", weight self);
    ("accessibility", DataBase.accessibility (base self));
    ("className", DataBase.class_name (base self));
    ("color", DataBase.color (base self));
    ("colorIndex", DataBase.color_index (base self));
    ("custom", DataBase.custom (base self));
    ("description", DataBase.description (base self));
    ("events", DataBase.events (base self));
    ("id", DataBase.id (base self));
    ("labelrank", DataBase.label_rank (base self));
    ("name", DataBase.name (base self));
    ("selected", DataBase.selected (base self)) ].

(** The setter of [from_]: [self._from_ = validators.string(value, allow_empty = True)]. *)
Definition set_from_ (self : t) (value : pyval) : result t :=
  validated <- validators.string value true ;;
  Ok {| _from_ := validated;
        _to := _to self;
        _weight := _weight self;
        base := base self |}.

(** The setter of [to]: [self._to = validators.string(value, allow_empty = True)]. *)
Definition set_to (self : t) (value : pyval) : result t :=
  validated <- validators.string value true ;;
  Ok {| _from_ := _from_ self;
        _to := validated;
        _weight := _weight self;
        base := base self |}.

Section Class.

(** Python's [float()] on a string, as [validators.float_] calls it. *)
Variable float_ : string -> option float.
(** Whether [validators.dict] parses a string into a dict. *)
Variable json_dict : string -> bool.
(** [validators.json(value)] on a string; [None] when it raises. *)
Variable validators_json : string -> option pyval.
(** [DataBase.__init__(self, **kwargs)]: the inherited attributes it sets. *)
Variable DataBase_init : dict -> result DataBase.t.
(** The inherited [cls.from_dict(item)]. *)
Variable from_dict : pyval -> result t.

(** The setter of [weight]: [self._weight = validators.numeric(value, allow_empty = True)]. *)
Definition set_weight (self : t) (value : pyval) : result t :=
  validated <- validators.numeric float_ value true ;;
  Ok {| _from_ := _from_ self;
        _to := _to self;
        _weight := validated;
        base := base self |}.

(** the constructor [ArcDiagramData.__init__]: the three setters in turn, then the inherited
    initialiser. *)
Definition __init__ (kwargs : dict) : result t :=
  from_ <- validators.string (dict_get kwargs "from_" PNone) true ;;
  to <- validators.string (dict_get kwargs "to" PNone) true ;;
  weight <- validators.numeric float_ (dict_get kwargs "weight" PNone) true ;;
  inherited <- DataBase_init kwargs ;;
  Ok {| _from_ := from_; _to := to; _weight := weight; base := inherited |}.

(** [item is None or isinstance(item, constants.EnforcedNullType)]. *)
Definition is_null (item : pyval) : bool :=
  match item with
  | PNone => true
  | _ => isinstance item "EnforcedNullType"
  end.

(** The body of the loop of [from_list]: the object one item becomes. *)
Definition coerce (item : pyval) : result point :=
  if checkers.is_type item "SinglePointData" then Ok (Given item)
  else if checkers.is_dict json_dict item then
    as_obj <- from_dict item ;; Ok (Built as_obj)
  else if is_null item then
    as_obj <- __init__ [("y", PNone)] ;; Ok (Built as_obj)
  else if checkers.is_numeric float_ item then
    as_obj <- __init__ [("y", item)] ;; Ok (Built as_obj)
  else if checkers.is_iterable_no_literals item then
    match item with
    | PList [item0; item1; item2] =>
        as_obj <- __init__ [("from_", item0); ("to", item1); ("weight", item2)] ;;
        Ok (Built as_obj)
    | _ => Raise HighchartsValueError
    end
  else Raise HighchartsValueError.

(** The loop of [from_list]. *)
Fixpoint coerce_all (items : list pyval) : result (list point) :=
  match items with
  | [] => Ok []
  | item :: rest =>
      as_obj <- coerce item ;;
      collection <- coerce_all rest ;;
      Ok (as_obj :: collection)
  end.

(** [ArcDiagramData.from_list(value)]. *)
Definition from_list (value : pyval) : result (list point) :=
  if negb (truthy value) then Ok []
  else
    let value :=
      if checkers.is_string value then
        match value with
        | PStr s =>
            match validators_json s with
            | Some parsed => parsed
            | None => value
            end
        | _ => value
        end
      else if negb (checkers.is_iterable value) then PList [value]
      else value in
    items <- py_iter value ;;
    coerce_all items.

End Class.

End ArcDiagramData.

(** ** Notions used to state the properties *)

(** The keys the merge special-cases while [preserve_data] is on. *)
Definition preserved_key (key : string) (kwargs : dict) : bool :=
  ((key =? "data") || (key =? "points") || (key =? "series"))
  && truthy (Chart.preserve_data_of kwargs).

(** A scalar leaf: neither a dict nor an iterable that is not a string. *)
Definition scalar_leaf (v : pyval) : bool :=
  match v with
  | PDict _ | PList _ => false
  | _ => true
  end.

(** A value of a numeric type, among the modelled values: [int] (with [bool],
    its subclass) or [float]. *)
Definition numeric_type (v : pyval) : bool :=
  match v with
  | PBool _ | PInt _ | PFloat _ => true
  | _ => false
  end.

(** [iter(v)] succeeds. *)
Definition iterable (v : pyval) : bool :=
  match py_iter v with
  | Ok _ => true
  | Raise _ => false
  end.

(** [other] is shaped like [original]: wherever the merge walks into a
    non-empty dict of [original], [other] holds a dict as well; and a
    ['series'] value met while [preserve] is on is iterable in [original] and
    still unset in [other]. Values under ['data'] and ['points'] are not
    looked at while [preserve] is on. *)
Fixpoint shaped_like (preserve : bool) (original other : pyval) : bool :=
  match original with
  | PDict [] => true
  | PDict d =>
      match other with
      | PDict o =>
          forallb
            (fun entry : string * pyval =>
               let (k, v) := entry in
               let other_value := dict_get o k PNone in
               if preserve && ((k =? "data") || (k =? "points")) then true
               else if preserve && (k =? "series")
                    then negb (truthy other_value) && iterable v
                    else shaped_like preserve v other_value)
            d
      | _ => false
      end
  | _ => true
  end.

(** The keys of a list are pairwise distinct. *)
Fixpoint keys_distinct (keys : list string) : bool :=
  match keys with
  | [] => true
  | key :: rest => negb (existsb (String.eqb key) rest) && keys_distinct rest
  end.

(** Every dict reached from the value through dicts has distinct keys, as a
    Python dict has. *)
Fixpoint distinct_keys (v : pyval) : bool :=
  match v with
  | PDict d =>
      keys_distinct (dict_keys d)
      && forallb (fun entry : string * pyval => distinct_keys (snd entry)) d
  | _ => true
  end.

(** What a validated string attribute holds: [None] or a non-empty string. *)
Definition stored_string (v : pyval) : bool :=
  match v with
  | PNone => true
  | PStr s => negb (s =? "")
  | _ => false
  end.

(** What a validated numeric attribute holds: [None] or a number. *)
Definition stored_number (v : pyval) : bool :=
  match v with
  | PNone => true
  | _ => numeric_type v
  end.

(** The three attributes of an [ArcDiagramData] hold validated values. *)
Definition validated_point (self : ArcDiagramData.t) : bool :=
  stored_string (ArcDiagramData.from_ self)
  && stored_string (ArcDiagramData.to self)
  && stored_number (ArcDiagramData.weight self).

(** [sep.join(parts)]. *)
Fixpoint join (sep : string) (parts : list string) : string :=
  match parts with
  | [] => ""
  | [part] => part
  | part :: rest => (part ++ sep ++ join sep rest)%string
  end.

(** The fragments a chart is rendered from: one for each of the container,
    the options and the callback that is set, in this order. *)
Definition signature_parts (py_str : pyval -> string)
    (method_to_js_literal : pyval -> string -> pyval)
    (self : Chart.t) (encoding : string) : list string :=
  (if truthy (Chart.container self)
   then [("renderTo = '" ++ Chart.format_value py_str (Chart.container self) ++ "'")%string]
   else [])
  ++ (if truthy (Chart.options self)
      then [("options = "
             ++ Chart.format_value py_str
                  (method_to_js_literal (Chart.options self) encoding))%string]
      else [])
  ++ (if truthy (Chart.callback self)
      then [("callback = "
             ++ Chart.format_value py_str
                  (method_to_js_literal (Chart.callback self) encoding))%string]
      else []).

(** The assignment prefix of a rendered chart. *)
Definition signature_prefix (py_str : pyval -> string) (self : Chart.t) : string :=
  if truthy (Chart.variable_name self)
  then ("var " ++ Chart.format_value py_str (Chart.variable_name self) ++ " = ")%string
  else "".

(** *** A sample environment for the closed examples *)

(** A sample comparison for the closed examples: it holds two series items
    equivalent when they have the same keys in the same order. *)
Definition same_keys (a b : dict) : bool :=
  if list_eq_dec String.string_dec (dict_keys a) (dict_keys b) then true else false.

(** A [float()] that parses nothing. *)
Definition no_float (s : string) : option float := None.

(** A [float()] that parses the literal ['1.5'] and nothing else. *)
Definition float_of_one_literal (s : string) : option float :=
  if s =? "1.5" then Some 1.5%float else None.

(** A data point with every inherited attribute unset. *)
Definition unset_base : DataBase.t :=
  DataBase.mk PNone PNone PNone PNone PNone PNone PNone PNone PNone PNone PNone.

(** A [DataBase] initialiser that sets nothing. *)
Definition init_unset (kwargs : dict) : result DataBase.t := Ok unset_base.

(** A [from_dict] that accepts no dict. *)
Definition from_no_dict (item : pyval) : result ArcDiagramData.t :=
  Raise HighchartsValueError.

(** A chart with nothing set. *)
Definition unset_chart : Chart.t := Chart.mk PNone PNone PNone PNone.

(** * Properties of the deep option merge *)

Section DeepMergeProperties.

Variable dicts_equivalent : dict -> dict -> bool.

Local Abbreviation copy_dict_key := (Chart._copy_dict_key dicts_equivalent).

(** A branch on a value that is no dict: whichever way its tests go, it returns. *)
Ltac leaf_returns :=
  cbn [checkers.is_iterable_no_literals];
  repeat match goal with
         | |- context [if ?c then _ else _] => destruct c
         end;
  now eexists.

Lemma eqb_false_of_neq (a b : string) : a <> b -> (a =? b) = false.
Proof. intro H. now apply String.eqb_neq. Qed.


(** C1 (the code departs from it). With [preserve_data] on and the key
    ['series'], a non-empty list in [original] and a non-empty list of the same
    length in [other] fall through every [return] of the series branch: the
    call yields [None], not a list. *)
Theorem copy_dict_key_series_same_length :
  forall fuel original other originals others overwrite kwargs,
    truthy (Chart.preserve_data_of kwargs) = true ->
    dict_lookup "series" original = Some (PList originals) ->
    dict_lookup "series" other = Some (PList others) ->
    originals <> [] ->
    List.length others = List.length originals ->
    copy_dict_key (S fuel) "series" original (PDict other) overwrite kwargs
    = Some (Ok PNone).
Proof.
  intros fuel original other originals others overwrite kwargs Hp Ho Hx Hne Hlen.
  cbn [Chart._copy_dict_key].
  rewrite Ho. cbn [py_get]. unfold dict_get. rewrite Hx, Hp.
  cbn [String.eqb Ascii.eqb Bool.eqb andb].
  destruct others as [|x others'].
  - destruct originals; [contradiction | discriminate].
  - cbn [truthy negb py_len]. rewrite Hlen, Nat.eqb_refl. reflexivity.
Qed.

(** C4, as amended. For a key that is not special-cased and whose value in
    [original] is a scalar leaf: with [overwrite] on, the value of [original]
    is returned; with [overwrite] off and a truthy value in [other], the value
    of [other] is returned. *)
Theorem copy_dict_key_scalar_leaf_policy :
  forall fuel key original other original_value overwrite kwargs,
    preserved_key key kwargs = false ->
    dict_lookup key original = Some original_value ->
    scalar_leaf original_value = true ->
    (overwrite = true ->
     copy_dict_key (S fuel) key original (PDict other) overwrite kwargs
     = Some (Ok original_value))
    /\ (overwrite = false ->
        truthy (dict_get other key PNone) = true ->
        copy_dict_key (S fuel) key original (PDict other) overwrite kwargs
        = Some (Ok (dict_get other key PNone))).
Proof.
  intros fuel key original other original_value overwrite kwargs Hkey Hin Hleaf.
  assert (Hbody :
    copy_dict_key (S fuel) key original (PDict other) overwrite kwargs
    = Some (Ok (if truthy (dict_get other key PNone) && negb overwrite
                then dict_get other key PNone else original_value))).
  { cbn [Chart._copy_dict_key]. rewrite Hin. cbn [py_get].
    unfold preserved_key in Hkey.
    destruct (truthy (Chart.preserve_data_of kwargs)).
    - rewrite andb_true_r in Hkey.
      apply orb_false_elim in Hkey as [Hkey Hseries].
      apply orb_false_elim in Hkey as [Hdata Hpoints].
      rewrite Hdata, Hpoints, Hseries. cbn [andb].
      destruct original_value; try discriminate Hleaf;
        cbn [checkers.is_iterable_no_literals];
        destruct (truthy (dict_get other key PNone) && negb overwrite); reflexivity.
    - rewrite !andb_false_r.
      destruct original_value; try discriminate Hleaf;
        cbn [checkers.is_iterable_no_literals];
        destruct (truthy (dict_get other key PNone) && negb overwrite); reflexivity. }
  split.
  - intros ->. rewrite Hbody, andb_false_r. reflexivity.
  - intros -> Htruthy. rewrite Hbody, Htruthy. reflexivity.
Qed.

(** *** The recursion measure *)

Lemma fold_max_in (A : Type) (f : A -> nat) (l : list A) (a : A) :
  In a l -> f a <= fold_right (fun x n => Nat.max (f x) n) 0 l.
Proof.
  induction l as [|b l IH]; intros Hin; [contradiction|].
  cbn [fold_right]. destruct Hin as [-> | Hin].
  - apply Nat.le_max_l.
  - etransitivity; [apply IH, Hin | apply Nat.le_max_r].
Qed.

Lemma height_in_list (l : list pyval) (x : pyval) :
  In x l -> height x < height (PList l).
Proof.
  intros Hin. cbn [height]. apply Nat.lt_succ_r.
  apply (fold_max_in pyval height l x Hin).
Qed.

Lemma dict_lookup_in (d : dict) (key : string) (v : pyval) :
  dict_lookup key d = Some v -> In (key, v) d.
Proof.
  induction d as [|[k w] d IH]; cbn [dict_lookup]; intros H; [discriminate|].
  destruct (k =? key) eqn:E.
  - apply String.eqb_eq in E. injection H as ->. subst k. now left.
  - right. now apply IH.
Qed.

Lemma height_lookup (d : dict) (key : string) (v : pyval) :
  dict_lookup key d = Some v -> height v < height (PDict d).
Proof.
  intros H. apply dict_lookup_in in H. cbn [height]. apply Nat.lt_succ_r.
  apply (fold_max_in (string * pyval) (fun kv => height (snd kv)) d (key, v) H).
Qed.

Lemma find_match_is_dict (original_item other_item : pyval) (others : list pyval) :
  Chart.find_match dicts_equivalent original_item others = Some other_item ->
  exists item, original_item = PDict item.
Proof.
  induction others as [|x others IH]; cbn [Chart.find_match]; [discriminate|].
  destruct (Chart.are_dicts_equivalent dicts_equivalent original_item x) eqn:E.
  - intros _. destruct original_item; try discriminate E. now eexists.
  - exact IH.
Qed.

Lemma match_series_in (originals others : list pyval) :
  forall matched_series new_series original_item other_item,
    Chart.match_series dicts_equivalent originals others = (matched_series, new_series) ->
    In (original_item, other_item) matched_series ->
    In original_item originals.
Proof.
  induction originals as [|o originals IH]; cbn [Chart.match_series];
    intros matched_series new_series original_item other_item Heq Hin.
  - injection Heq as <- <-. contradiction.
  - destruct (Chart.match_series dicts_equivalent originals others) as [m n] eqn:Erest.
    destruct (Chart.find_match dicts_equivalent o others) as [x|].
    + injection Heq as <- <-. destruct Hin as [Hhd | Hin].
      * injection Hhd as -> _. now left.
      * right. eapply IH; [reflexivity | exact Hin].
    + injection Heq as <- <-. right. eapply IH; [reflexivity | exact Hin].
Qed.

(** *** The loops return whenever the recursive calls do *)

Section Loops.

Variable copy : string -> dict -> pyval -> option (result pyval).

Lemma copy_subkeys_total (original_value : dict) (other_value : pyval) :
  (forall subkey, exists r, copy subkey original_value other_value = Some r) ->
  forall subkeys new_value,
    exists r, Chart.copy_subkeys copy subkeys original_value other_value new_value = Some r.
Proof.
  intros Hcopy subkeys.
  induction subkeys as [|subkey rest IH]; intros new_value; cbn [Chart.copy_subkeys].
  - now eexists.
  - destruct (Hcopy subkey) as [[v|e] ->]; [apply IH | now eexists].
Qed.

Lemma copy_into_new_item_total (original_item : dict) :
  (forall subkey other, exists r, copy subkey original_item other = Some r) ->
  forall subkeys new_item,
    exists r, Chart.copy_into_new_item copy subkeys original_item new_item = Some r.
Proof.
  intros Hcopy subkeys.
  induction subkeys as [|subkey rest IH]; intros new_item; cbn [Chart.copy_into_new_item].
  - now eexists.
  - destruct (Hcopy subkey (PDict new_item)) as [[v|e] ->]; [apply IH | now eexists].
Qed.

Lemma update_matched_total (matched_series : list (pyval * pyval)) :
  (forall item other_item,
      In (PDict item, other_item) matched_series ->
      forall subkey other, exists r, copy subkey item other = Some r) ->
  exists r, Chart.update_matched copy matched_series = Some r.
Proof.
  induction matched_series as [|[original_item other_item] rest IH];
    intros Hcopy; cbn [Chart.update_matched].
  - now eexists.
  - destruct IH as [r Hr].
    { intros item x Hin. apply (Hcopy item x). now right. }
    destruct original_item; try (now eexists).
    destruct (copy_into_new_item_total d (Hcopy d other_item (or_introl eq_refl))
                (dict_keys d) []) as [[new_item|e] ->]; [|now eexists].
    rewrite Hr. destruct r as [updated|e]; now eexists.
Qed.

End Loops.

Lemma chars_are_strings (s : string) (x : pyval) :
  In x (chars s) -> exists c, x = PStr c.
Proof.
  induction s as [|a s IH]; cbn [chars]; intros H; [contradiction|].
  destruct H as [<- | H]; [now eexists | now apply IH].
Qed.

(** The items [py_iter] yields are below the value iterated; the keys of a
    dict and the characters of a string are strings. *)
Lemma py_iter_dict_item (v : pyval) (items : list pyval) (item : dict) :
  py_iter v = Ok items -> In (PDict item) items -> height (PDict item) < height v.
Proof.
  destruct v; cbn [py_iter]; intros Hiter Hin; try discriminate Hiter;
    injection Hiter as <-.
  - apply chars_are_strings in Hin as [c Hc]. discriminate Hc.
  - now apply height_in_list.
  - apply in_map_iff in Hin as [k [Hk _]]. discriminate Hk.
Qed.

(** A recursion budget of the height of [original] is enough: each recursive
    call is on a dict that lies strictly inside the value of [original]. *)
Lemma copy_dict_key_budget :
  forall fuel key original other overwrite kwargs,
    height (PDict original) <= fuel ->
    exists outcome,
      copy_dict_key fuel key original other overwrite kwargs = Some outcome.
Proof.
  induction fuel as [|fuel IH]; intros key original other overwrite kwargs Hfuel.
  - cbn [height] in Hfuel. lia.
  - cbn [Chart._copy_dict_key].
    destruct (dict_lookup key original) as [original_value|] eqn:Hlookup;
      [|now eexists].
    apply height_lookup in Hlookup.
    destruct (py_get other key) as [other_value|e]; [|now eexists].
    destruct ((key =? "data") && _); [now eexists|].
    destruct ((key =? "points") && _); [now eexists|].
    destruct ((key =? "series") && _).
    + destruct (negb (truthy other_value)); [now eexists|].
      destruct (py_len other_value) as [len_other|e]; [|now eexists].
      destruct (py_len original_value) as [len_original|e]; [|now eexists].
      destruct (negb (len_other =? len_original)%nat); [|now eexists].
      destruct (py_iter original_value) as [originals|e] eqn:Horiginals;
        [|now eexists].
      destruct (py_iter other_value) as [others|e]; [|now eexists].
      destruct (Chart.match_series dicts_equivalent originals others)
        as [matched_series new_series] eqn:Hmatch.
      destruct (update_matched_total
                  (fun subkey original' other' =>
                     copy_dict_key fuel subkey original' other' overwrite kwargs)
                  matched_series) as [[updated|e] ->]; try (now eexists).
      intros item other_item Hin subkey other'. apply IH.
      pose proof (match_series_in _ _ _ _ _ _ Hmatch Hin) as Hitem.
      pose proof (py_iter_dict_item _ _ _ Horiginals Hitem). lia.
    + destruct original_value as [| | | | | |d|];
        try leaf_returns.
      assert (Hcalls : forall subkey, exists r,
                 copy_dict_key fuel subkey d other_value overwrite kwargs = Some r)
        by (intros subkey; apply IH; lia).
      destruct (copy_subkeys_total
                  (fun subkey original' other' =>
                     copy_dict_key fuel subkey original' other' overwrite kwargs)
                  d other_value Hcalls (dict_keys d) [])
        as [[new_value|e] ->]; now eexists.
Qed.

(** *** A larger budget changes nothing *)

Section LoopsMonotone.

Variables copy1 copy2 : string -> dict -> pyval -> option (result pyval).
Hypothesis copy_mono :
  forall subkey original other r,
    copy1 subkey original other = Some r -> copy2 subkey original other = Some r.

Lemma copy_subkeys_mono (original_value : dict) (other_value : pyval) :
  forall subkeys new_value r,
    Chart.copy_subkeys copy1 subkeys original_value other_value new_value = Some r ->
    Chart.copy_subkeys copy2 subkeys original_value other_value new_value = Some r.
Proof.
  induction subkeys as [|subkey rest IH]; intros new_value r;
    cbn [Chart.copy_subkeys]; [trivial|].
  destruct (copy1 subkey original_value other_value) as [r1|] eqn:E1;
    [|discriminate].
  rewrite (copy_mono _ _ _ _ E1). destruct r1; [apply IH | trivial].
Qed.

Lemma copy_into_new_item_mono (original_item : dict) :
  forall subkeys new_item r,
    Chart.copy_into_new_item copy1 subkeys original_item new_item = Some r ->
    Chart.copy_into_new_item copy2 subkeys original_item new_item = Some r.
Proof.
  induction subkeys as [|subkey rest IH]; intros new_item r;
    cbn [Chart.copy_into_new_item]; [trivial|].
  destruct (copy1 subkey original_item (PDict new_item)) as [r1|] eqn:E1;
    [|discriminate].
  rewrite (copy_mono _ _ _ _ E1). destruct r1; [apply IH | trivial].
Qed.

Lemma update_matched_mono :
  forall matched_series r,
    Chart.update_matched copy1 matched_series = Some r ->
    Chart.update_matched copy2 matched_series = Some r.
Proof.
  induction matched_series as [|[original_item other_item] rest IH]; intros r;
    cbn [Chart.update_matched]; [trivial|].
  destruct original_item; trivial.
  destruct (Chart.copy_into_new_item copy1 (dict_keys d) d []) as [r1|] eqn:E1;
    [|discriminate].
  rewrite (copy_into_new_item_mono _ _ _ _ E1). destruct r1; [|trivial].
  destruct (Chart.update_matched copy1 rest) as [r2|] eqn:E2; [|discriminate].
  rewrite (IH _ eq_refl). trivial.
Qed.

End LoopsMonotone.

Lemma copy_dict_key_fuel_mono :
  forall fuel fuel' key original other overwrite kwargs r,
    fuel <= fuel' ->
    copy_dict_key fuel key original other overwrite kwargs = Some r ->
    copy_dict_key fuel' key original other overwrite kwargs = Some r.
Proof.
  induction fuel as [|fuel IH];
    intros fuel' key original other overwrite kwargs r Hle H; [discriminate H|].
  destruct fuel' as [|fuel']; [lia|].
  assert (Hmono : forall subkey original' other' r',
             copy_dict_key fuel subkey original' other' overwrite kwargs = Some r' ->
             copy_dict_key fuel' subkey original' other' overwrite kwargs = Some r')
    by (intros; apply (IH fuel'); [lia | assumption]).
  cbn [Chart._copy_dict_key] in H |- *.
  destruct (dict_lookup key original) as [original_value|]; [|exact H].
  destruct (py_get other key) as [other_value|e]; [|exact H].
  destruct ((key =? "data") && _); [exact H|].
  destruct ((key =? "points") && _); [exact H|].
  destruct ((key =? "series") && _).
  - destruct (negb (truthy other_value)); [exact H|].
    destruct (py_len other_value) as [len_other|e]; [|exact H].
    destruct (py_len original_value) as [len_original|e]; [|exact H].
    destruct (negb (len_other =? len_original)%nat); [|exact H].
    destruct (py_iter original_value) as [originals|e]; [|exact H].
    destruct (py_iter other_value) as [others|e]; [|exact H].
    destruct (Chart.match_series dicts_equivalent originals others)
      as [matched_series new_series].
    match type of H with
    | context [Chart.update_matched ?c ?m] =>
        destruct (Chart.update_matched c m) as [ru|] eqn:Hu; [|discriminate H]
    end.
    rewrite (update_matched_mono _ _ Hmono _ _ Hu). exact H.
  - destruct original_value; try exact H.
    match type of H with
    | context [Chart.copy_subkeys ?c ?ks ?o ?x ?acc] =>
        destruct (Chart.copy_subkeys c ks o x acc) as [rs|] eqn:Hs; [|discriminate H]
    end.
    rewrite (copy_subkeys_mono _ _ Hmono _ _ _ _ _ Hs). exact H.
Qed.

(** C9. The merge terminates on every finite tree: with a recursion budget of
    the height of [original] the call returns or raises, whatever [other],
    [overwrite] and the keyword arguments are, and a larger budget gives the
    same outcome. *)
Theorem copy_dict_key_terminates :
  forall fuel key original other overwrite kwargs,
    height (PDict original) <= fuel ->
    exists outcome,
      copy_dict_key (height (PDict original)) key original other overwrite kwargs
      = Some outcome
      /\ copy_dict_key fuel key original other overwrite kwargs = Some outcome.
Proof.
  intros fuel key original other overwrite kwargs Hfuel.
  destruct (copy_dict_key_budget (height (PDict original)) key original other
              overwrite kwargs (Nat.le_refl _)) as [outcome Houtcome].
  exists outcome. split; [exact Houtcome|].
  now apply (copy_dict_key_fuel_mono (height (PDict original))).
Qed.

(** *** Dict updates *)

Lemma dict_lookup_set_same (key : string) (v : pyval) (d : dict) :
  dict_lookup key (dict_set key v d) = Some v.
Proof.
  induction d as [|[k w] d IH]; cbn [dict_set dict_lookup].
  - now rewrite String.eqb_refl.
  - destruct (k =? key) eqn:E; cbn [dict_lookup]; rewrite E; [reflexivity | exact IH].
Qed.

Lemma dict_lookup_set_other (key key' : string) (v : pyval) (d : dict) :
  key <> key' -> dict_lookup key (dict_set key' v d) = dict_lookup key d.
Proof.
  intros Hneq.
  induction d as [|[k w] d IH]; cbn [dict_set dict_lookup].
  - rewrite eqb_false_of_neq; [reflexivity | congruence].
  - destruct (k =? key') eqn:E; cbn [dict_lookup].
    + apply String.eqb_eq in E. subst k.
      rewrite eqb_false_of_neq; [reflexivity | congruence].
    + destruct (k =? key); [reflexivity | exact IH].
Qed.

Lemma dict_keys_set_new (key : string) (v : pyval) (d : dict) :
  ~ In key (dict_keys d) -> dict_keys (dict_set key v d) = dict_keys d ++ [key].
Proof.
  induction d as [|[k w] d IH]; cbn [dict_set dict_keys map fst app]; intros Hnot.
  - reflexivity.
  - rewrite eqb_false_of_neq by (intros ->; apply Hnot; now left).
    cbn [map fst]. f_equal. apply IH. intros Hin. apply Hnot. now right.
Qed.

Lemma dict_keys_lookup (key : string) (d : dict) :
  In key (dict_keys d) -> exists v, dict_lookup key d = Some v.
Proof.
  induction d as [|[k w] d IH]; cbn [dict_keys map fst dict_lookup]; intros Hin.
  - contradiction.
  - destruct (k =? key) eqn:E; [now eexists|].
    destruct Hin as [-> | Hin]; [now rewrite String.eqb_refl in E | now apply IH].
Qed.

(** *** What the dict loop builds *)

Section DictLoop.

Variable copy : string -> dict -> pyval -> option (result pyval).
Variables (original_value : dict) (other_value : pyval).

Lemma copy_subkeys_returns :
  forall subkeys,
    (forall subkey, In subkey subkeys ->
       exists v, copy subkey original_value other_value = Some (Ok v)) ->
    forall new_value,
    exists merged,
      Chart.copy_subkeys copy subkeys original_value other_value new_value
      = Some (Ok merged).
Proof.
  induction subkeys as [|subkey rest IH]; intros Hcopy new_value;
    cbn [Chart.copy_subkeys].
  - now eexists.
  - destruct (Hcopy subkey (or_introl eq_refl)) as [v ->].
    apply IH. intros k Hk. apply Hcopy. now right.
Qed.

Lemma copy_subkeys_entries :
  forall subkeys new_value merged,
    Chart.copy_subkeys copy subkeys original_value other_value new_value
    = Some (Ok merged) ->
    (forall subkey, In subkey subkeys ->
       exists v, copy subkey original_value other_value = Some (Ok v)
                 /\ dict_lookup subkey merged = Some v)
    /\ (forall subkey, ~ In subkey subkeys ->
          dict_lookup subkey merged = dict_lookup subkey new_value).
Proof.
  induction subkeys as [|subkey rest IH]; intros new_value merged;
    cbn [Chart.copy_subkeys]; intros H.
  - injection H as <-. split; [intros k [] | reflexivity].
  - destruct (copy subkey original_value other_value) as [[v|e]|] eqn:Ecopy;
      try discriminate H.
    destruct (IH _ _ H) as [Hin Hout]. split.
    + intros k Hk. destruct (in_dec String.string_dec k rest) as [Hrest | Hrest].
      * now apply Hin.
      * destruct Hk as [<- | Hk]; [|contradiction].
        exists v. split; [exact Ecopy|].
        rewrite (Hout _ Hrest). apply dict_lookup_set_same.
    + intros k Hk. rewrite Hout by (intros Hrest; apply Hk; now right).
      apply dict_lookup_set_other. intros ->. apply Hk. now left.
Qed.

Lemma copy_subkeys_keys :
  forall subkeys new_value merged,
    NoDup (dict_keys new_value ++ subkeys) ->
    Chart.copy_subkeys copy subkeys original_value other_value new_value
    = Some (Ok merged) ->
    dict_keys merged = dict_keys new_value ++ subkeys.
Proof.
  induction subkeys as [|subkey rest IH]; intros new_value merged Hnodup;
    cbn [Chart.copy_subkeys]; intros H.
  - injection H as <-. now rewrite app_nil_r.
  - destruct (copy subkey original_value other_value) as [[v|e]|];
      try discriminate H.
    assert (Hfresh : ~ In subkey (dict_keys new_value)).
    { intros Hin. apply NoDup_remove_2 in Hnodup. apply Hnodup.
      apply in_or_app. now left. }
    apply IH in H.
    + rewrite H, dict_keys_set_new by exact Hfresh.
      now rewrite <- app_assoc.
    + rewrite dict_keys_set_new by exact Hfresh.
      now rewrite <- app_assoc.
Qed.

End DictLoop.

(** *** Merging into a tree of the same shape *)

(** When [other] is shaped like [original], the call for any key of
    [original] returns. *)
Lemma copy_dict_key_shaped_returns :
  forall fuel key original other overwrite kwargs,
    height (PDict original) <= fuel ->
    shaped_like (truthy (Chart.preserve_data_of kwargs)) (PDict original) other = true ->
    In key (dict_keys original) ->
    exists v, copy_dict_key fuel key original other overwrite kwargs = Some (Ok v).
Proof.
  induction fuel as [|fuel IH]; intros key original other overwrite kwargs Hfuel Hshape Hkey.
  - cbn [height] in Hfuel. lia.
  - destruct (dict_keys_lookup _ _ Hkey) as [original_value Hlookup].
    pose proof (dict_lookup_in _ _ _ Hlookup) as Hentry.
    pose proof (height_lookup _ _ _ Hlookup) as Hheight.
    destruct original as [|first rest]; [contradiction|].
    cbn [shaped_like] in Hshape.
    destruct other as [| | | | | |o|]; try discriminate Hshape.
    rewrite forallb_forall in Hshape. specialize (Hshape _ Hentry).
    cbn beta iota zeta in Hshape.
    cbn [Chart._copy_dict_key]. rewrite Hlookup. cbn [py_get].
    destruct (truthy (Chart.preserve_data_of kwargs)) eqn:Hpreserve;
      cbn [andb] in Hshape; rewrite ?andb_true_r, ?andb_false_r.
    + destruct (key =? "data"); [now eexists|].
      destruct (key =? "points"); [now eexists|].
      cbn [orb] in Hshape.
      destruct (key =? "series").
      * apply andb_true_iff in Hshape as [Hunset Hiter]. rewrite Hunset.
        unfold iterable in Hiter. unfold list_copy.
        destruct (py_iter original_value); [now eexists | discriminate Hiter].
      * destruct original_value as [| | | | | |d|];
          try leaf_returns.
        destruct (copy_subkeys_returns
                    (fun subkey original' other' =>
                       copy_dict_key fuel subkey original' other' overwrite kwargs)
                    d (dict_get o key PNone) (dict_keys d)) with (new_value := @nil (string * pyval))
          as [merged ->]; [|now eexists].
        intros subkey Hsubkey. apply IH; [lia | | exact Hsubkey].
        now rewrite Hpreserve.
    + destruct original_value as [| | | | | |d|];
        try leaf_returns.
      destruct (copy_subkeys_returns
                  (fun subkey original' other' =>
                     copy_dict_key fuel subkey original' other' overwrite kwargs)
                  d (dict_get o key PNone) (dict_keys d)) with (new_value := @nil (string * pyval))
        as [merged ->]; [|now eexists].
      intros subkey Hsubkey. apply IH; [lia | | exact Hsubkey].
      now rewrite Hpreserve.
Qed.

(** C2, as amended. For a key that is not special-cased, whose value in
    [original] is a dict [d], and for an [other] whose value under that key is
    shaped like [d], the call returns a dict with the keys of [d], in their
    order, in which every key holds what the merge returns for that key on
    [d] and the value of [other]. *)
Theorem copy_dict_key_merges_sub_dict :
  forall fuel key original other d overwrite kwargs,
    height (PDict original) <= fuel ->
    preserved_key key kwargs = false ->
    dict_lookup key original = Some (PDict d) ->
    NoDup (dict_keys d) ->
    shaped_like (truthy (Chart.preserve_data_of kwargs)) (PDict d)
      (dict_get other key PNone) = true ->
    exists new_value,
      copy_dict_key fuel key original (PDict other) overwrite kwargs
      = Some (Ok (PDict new_value))
      /\ dict_keys new_value = dict_keys d
      /\ forall subkey,
           In subkey (dict_keys d) ->
           copy_dict_key fuel subkey d (dict_get other key PNone) overwrite kwargs
           = Some (Ok (dict_get new_value subkey PNone)).
Proof.
  intros fuel key original other d overwrite kwargs Hfuel Hkey Hlookup Hnodup Hshape.
  pose proof (height_lookup _ _ _ Hlookup) as Hheight.
  destruct fuel as [|fuel]; [cbn [height] in Hfuel; lia|].
  set (copy := fun subkey original' other' =>
                 copy_dict_key fuel subkey original' other' overwrite kwargs).
  assert (Hcalls : forall subkey, In subkey (dict_keys d) ->
            exists v, copy subkey d (dict_get other key PNone) = Some (Ok v)).
  { intros subkey Hsubkey. apply copy_dict_key_shaped_returns;
      [lia | exact Hshape | exact Hsubkey]. }
  destruct (copy_subkeys_returns copy d (dict_get other key PNone) (dict_keys d)
              Hcalls []) as [new_value Hloop].
  exists new_value. split; [|split].
  - cbn [Chart._copy_dict_key]. rewrite Hlookup. cbn [py_get].
    unfold preserved_key in Hkey.
    fold copy. 
    destruct (truthy (Chart.preserve_data_of kwargs)).
    + rewrite andb_true_r in Hkey.
      apply orb_false_elim in Hkey as [Hkey Hseries].
      apply orb_false_elim in Hkey as [Hdata Hpoints].
      rewrite Hdata, Hpoints, Hseries. cbn [andb].
      fold copy. now rewrite Hloop.
    + rewrite !andb_false_r. fold copy. now rewrite Hloop.
  - apply (copy_subkeys_keys copy d (dict_get other key PNone)) in Hloop;
      [exact Hloop | exact Hnodup].
  - intros subkey Hsubkey.
    destruct (copy_subkeys_entries copy d (dict_get other key PNone) _ _ _ Hloop)
      as [Hentries _].
    destruct (Hentries subkey Hsubkey) as [v [Hv Hstored]].
    unfold dict_get at 2. rewrite Hstored.
    apply (copy_dict_key_fuel_mono fuel); [lia | exact Hv].
Qed.

End DeepMergeProperties.

(** * Properties of the chart object *)

(** C5 (the code departs from it). The call [download_chart] ends in is the
    same for every chart: nothing of [self] is passed on. Without a server
    instance it is [ExportServer.get_chart] with the four named arguments and
    the caller's keyword arguments, so an ['options'] argument is there only
    if the caller gave one; with a server instance it is [request_chart] with
    the four named arguments alone. *)
Theorem download_chart_ignores_the_chart :
  forall (self self' : Chart.t) filename auth_user auth_password timeout
         server_instance kwargs,
    Chart.download_chart self filename auth_user auth_password timeout
      server_instance kwargs
    = Chart.download_chart self' filename auth_user auth_password timeout
        server_instance kwargs
    /\ (forall passed,
          Chart.download_chart self filename auth_user auth_password timeout
            server_instance kwargs = Ok (Chart.ExportServer_get_chart passed) ->
          dict_lookup "options" passed = dict_lookup "options" kwargs)
    /\ (forall server passed,
          Chart.download_chart self filename auth_user auth_password timeout
            server_instance kwargs = Ok (Chart.request_chart server passed) ->
          server = server_instance /\ dict_lookup "options" passed = None).
Proof.
  intros self self' filename auth_user auth_password timeout server_instance kwargs.
  unfold Chart.download_chart. split; [reflexivity|]. split.
  - intros passed H. destruct (negb (truthy server_instance)).
    + injection H as <-. reflexivity.
    + destruct (negb (isinstance server_instance "ExportServer")); discriminate H.
  - intros server passed H. destruct (negb (truthy server_instance)); [discriminate H|].
    destruct (negb (isinstance server_instance "ExportServer")); [discriminate H|].
    injection H as <- <-. split; reflexivity.
Qed.

Lemma string_append_assoc (a b c : string) :
  ((a ++ b) ++ c = a ++ (b ++ c))%string.
Proof.
  induction a as [|x a IH]; cbn [String.append]; [reflexivity | now rewrite IH].
Qed.

Section SerialisationProperties.

Variable py_str : pyval -> string.
Variable serialize_to_js_literal : pyval -> string -> option string.
Variable method_to_js_literal : pyval -> string -> pyval.
Variable validators_path : pyval -> result pyval.

Local Abbreviation to_js_literal :=
  (Chart.to_js_literal py_str serialize_to_js_literal method_to_js_literal
     validators_path).

(** C6 (the code departs from it). A chart with a container and options but
    no callback is rendered with a separator right before the closing [');']. *)
Theorem to_js_literal_trailing_separator :
  forall first rest classes attrs encoding,
    let container := PStr (String first rest) in
    let options := PObj classes attrs in
    to_js_literal (Chart.mk PNone container options PNone) PNone encoding
    = Ok (("new Highcharts.chart(renderTo = '" ++ String first rest ++ "'"
           ++ Chart.separator
           ++ "options = "
           ++ Chart.format_value py_str (method_to_js_literal options encoding)
           ++ Chart.separator ++ ");")%string,
          []).
Proof.
  intros first rest classes attrs encoding container options.
  unfold Chart.to_js_literal, container, options.
  cbn [truthy bind Chart.container Chart.options Chart.callback
       Chart.variable_name Chart._container Chart._options Chart._callback
       Chart._variable_name String.eqb negb].
  cbn [Chart.nonempty String.append String.eqb negb Nat.add Nat.ltb Nat.leb].
  cbn [Chart.format_value].
  repeat rewrite string_append_assoc. reflexivity.
Qed.

End SerialisationProperties.

(** * Properties of the dict and keyword mappings *)

(** C7. Reading the keyword arguments back from the untrimmed dict recovers
    every attribute of an [ArcDiagramData] under its Python name (['from'] as
    ['from_'], ['className'] as ['class_name'], ['labelrank'] as
    ['label_rank'], and so on). For a [Chart] whose container is a value its
    setter stores, it recovers the callback, the container and the options
    (written as ['userOptions'], read back as ['options']); and a dict with no
    ['container'] has its ['renderTo'] read as the container. *)
Theorem kwargs_from_untrimmed_dict :
  (forall self : ArcDiagramData.t,
      ArcDiagramData._get_kwargs_from_dict (ArcDiagramData._to_untrimmed_dict self)
      = [ ("accessibility", DataBase.accessibility (ArcDiagramData.base self));
          ("class_name", DataBase.class_name (ArcDiagramData.base self));
          ("color", DataBase.color (ArcDiagramData.base self));
          ("color_index", DataBase.color_index (ArcDiagramData.base self));
          ("custom", DataBase.custom (ArcDiagramData.base self));
          ("description", DataBase.description (ArcDiagramData.base self));
          ("events", DataBase.events (ArcDiagramData.base self));
          ("id", DataBase.id (ArcDiagramData.base self));
          ("label_rank", DataBase.label_rank (ArcDiagramData.base self));
          ("name", DataBase.name (ArcDiagramData.base self));
          ("selected", DataBase.selected (ArcDiagramData.base self));
          ("from_", ArcDiagramData.from_ self);
          ("to", ArcDiagramData.to self);
          ("weight", ArcDiagramData.weight self) ])
  /\ (forall self : Chart.t,
        validators.string (Chart.container self) true = Ok (Chart.container self) ->
        Chart._get_kwargs_from_dict (Chart._to_untrimmed_dict self)
        = [ ("callback", Chart.callback self);
            ("container", Chart.container self);
            ("options", Chart.options self);
            ("variable_name", PNone) ])
  /\ (forall as_dict : dict,
        dict_lookup "container" as_dict = None ->
        dict_get (Chart._get_kwargs_from_dict as_dict) "container" PNone
        = dict_get as_dict "renderTo" PNone).
Proof.
  split; [|split].
  - intros self. reflexivity.
  - intros self Hstored.
    unfold Chart._get_kwargs_from_dict, Chart._to_untrimmed_dict.
    cbn [dict_get dict_lookup String.eqb Ascii.eqb Bool.eqb].
    cbn [py_or truthy].
    replace (py_or (Chart.container self) PNone) with (Chart.container self);
      [reflexivity|].
    unfold validators.string in Hstored. unfold py_or.
    destruct (truthy (Chart.container self)); [reflexivity|].
    cbn [negb] in Hstored. now injection Hstored as <-.
  - intros as_dict Habsent.
    unfold Chart._get_kwargs_from_dict.
    cbn [dict_get dict_lookup String.eqb Ascii.eqb Bool.eqb].
    unfold dict_get at 1. rewrite Habsent. reflexivity.
Qed.

(** * Properties of the validating setters *)

Section SetterProperties.

Variable float_ : string -> option float.

(** C8, as amended. [Chart.container] takes every falsy value as empty and
    stores [None], stores a non-empty string as it is, and raises for every
    truthy value that is not a string. [ArcDiagramData.weight] takes [None]
    and a numeric value and stores them as they are, takes a string that
    [float()] parses and stores that float, and raises for every other value:
    a string that does not parse, a list, a dict, a plain instance. After a
    successful assignment the getter returns the validated value. *)
Theorem setters_validate :
  forall (chart : Chart.t) (point : ArcDiagramData.t) (value : pyval),
    (truthy value = false ->
     exists chart', Chart.set_container chart value = Ok chart'
                    /\ Chart.container chart' = PNone)
    /\ (forall s, value = PStr s -> s <> "" ->
        exists chart', Chart.set_container chart value = Ok chart'
                       /\ Chart.container chart' = PStr s)
    /\ (truthy value = true -> (forall s, value <> PStr s) ->
        Chart.set_container chart value = Raise CannotCoerceError)
    /\ (value = PNone ->
        exists point', ArcDiagramData.set_weight float_ point value = Ok point'
                       /\ ArcDiagramData.weight point' = PNone)
    /\ (numeric_type value = true ->
        exists point', ArcDiagramData.set_weight float_ point value = Ok point'
                       /\ ArcDiagramData.weight point' = value)
    /\ (forall s f, value = PStr s -> float_ s = Some f ->
        exists point', ArcDiagramData.set_weight float_ point value = Ok point'
                       /\ ArcDiagramData.weight point' = PFloat f)
    /\ (forall s, value = PStr s -> float_ s = None ->
        ArcDiagramData.set_weight float_ point value = Raise CannotCoerceError)
    /\ (value <> PNone -> numeric_type value = false -> (forall s, value <> PStr s) ->
        ArcDiagramData.set_weight float_ point value = Raise CannotCoerceError).
Proof.
  intros chart point value.
  unfold Chart.set_container, ArcDiagramData.set_weight, validators.string.
  repeat split.
  - intros ->. cbn [negb bind]. eexists. split; reflexivity.
  - intros s -> Hs. cbn [truthy]. rewrite eqb_false_of_neq by exact Hs.
    cbn [negb bind]. eexists. split; reflexivity.
  - intros -> Hnot. cbn [negb].
    destruct value; try reflexivity. now destruct (Hnot s).
  - intros ->. cbn [validators.numeric bind]. eexists. split; reflexivity.
  - intros Hnum. destruct value; try discriminate Hnum;
      cbn [validators.numeric bind]; eexists; split; reflexivity.
  - intros s f -> Hf. cbn [validators.numeric]. rewrite Hf. cbn [bind].
    eexists. split; reflexivity.
  - intros s -> Hf. cbn [validators.numeric]. rewrite Hf. reflexivity.
  - intros Hnone Hnum Hstr.
    destruct value; try discriminate Hnum; try reflexivity.
    + now destruct Hnone.
    + now destruct (Hstr s).
Qed.

End SetterProperties.

(** * Properties of [ArcDiagramData.from_list] *)

Section FromListProperties.

Variable float_ : string -> option float.
Variable json_dict : string -> bool.
Variable validators_json : string -> option pyval.
Variable DataBase_init : dict -> result DataBase.t.
Variable from_dict : pyval -> result ArcDiagramData.t.

Local Abbreviation init := (ArcDiagramData.__init__ float_ DataBase_init).
Local Abbreviation coerce :=
  (ArcDiagramData.coerce float_ json_dict DataBase_init from_dict).
Local Abbreviation coerce_all :=
  (ArcDiagramData.coerce_all float_ json_dict DataBase_init from_dict).
Local Abbreviation from_list :=
  (ArcDiagramData.from_list float_ json_dict validators_json DataBase_init from_dict).

(** The constructor on the keyword [y] alone: the three attributes of the
    class stay [None], the rest is left to [DataBase]. *)
Lemma init_of_y (item : pyval) :
  init [("y", item)]
  = (inherited <- DataBase_init [("y", item)] ;;
     Ok (ArcDiagramData.mk PNone PNone PNone inherited)).
Proof. reflexivity. Qed.

(** The constructor on the three positions of a list item: each goes through
    its setter's validator, in turn. *)
Lemma init_of_triple (item0 item1 item2 : pyval) :
  init [("from_", item0); ("to", item1); ("weight", item2)]
  = (from_ <- validators.string item0 true ;;
     to <- validators.string item1 true ;;
     weight <- validators.numeric float_ item2 true ;;
     inherited <- DataBase_init [("from_", item0); ("to", item1); ("weight", item2)] ;;
     Ok (ArcDiagramData.mk from_ to weight inherited)).
Proof. reflexivity. Qed.

(** C10, as amended. A falsy input gives the empty list; a non-empty list is
    coerced item by item, in order, the first error ending the call. A [None]
    item, and an [EnforcedNullType] item, is what the constructor builds from
    [y = None]; an item of a numeric type, and a string that is numeric, is
    what it builds from [y = item]; a list of exactly three items is what it
    builds from [from_], [to] and [weight] taken at positions 0, 1 and 2, so
    it is a data point when these pass the validators of the setters and the
    error of the first failing validator otherwise; a list of any other length
    raises [HighchartsValueError], as does every item that is none of the
    above, nor a [SinglePointData], nor a dict. The length 3 is the larger of
    the supported dimensions. *)
Theorem from_list_coerces :
  forall item : pyval,
    (forall value, truthy value = false -> from_list value = Ok [])
    /\ (forall items, items <> [] -> from_list (PList items) = coerce_all items)
    /\ (forall rest,
          coerce_all (item :: rest)
          = (as_obj <- coerce item ;;
             collection <- coerce_all rest ;;
             Ok (as_obj :: collection)))
    /\ (item = PNone ->
        coerce item = (as_obj <- init [("y", PNone)] ;; Ok (ArcDiagramData.Built as_obj)))
    /\ (isinstance item "EnforcedNullType" = true ->
        checkers.is_type item "SinglePointData" = false ->
        coerce item = (as_obj <- init [("y", PNone)] ;; Ok (ArcDiagramData.Built as_obj)))
    /\ (numeric_type item = true ->
        coerce item = (as_obj <- init [("y", item)] ;; Ok (ArcDiagramData.Built as_obj)))
    /\ (forall s,
          item = PStr s -> json_dict s = false ->
          checkers.is_numeric float_ item = true ->
          coerce item = (as_obj <- init [("y", item)] ;; Ok (ArcDiagramData.Built as_obj)))
    /\ (forall item0 item1 item2,
          item = PList [item0; item1; item2] ->
          coerce item
          = (as_obj <- init [("from_", item0); ("to", item1); ("weight", item2)] ;;
             Ok (ArcDiagramData.Built as_obj)))
    /\ (forall items,
          item = PList items -> List.length items <> 3 ->
          coerce item = Raise HighchartsValueError)
    /\ (checkers.is_type item "SinglePointData" = false ->
        checkers.is_dict json_dict item = false ->
        ArcDiagramData.is_null item = false ->
        checkers.is_numeric float_ item = false ->
        checkers.is_iterable_no_literals item = false ->
        coerce item = Raise HighchartsValueError)
    /\ In 3 ArcDiagramData._get_supported_dimensions.
Proof.
  intros item. repeat apply conj.
  - intros value Hfalsy. unfold ArcDiagramData.from_list. now rewrite Hfalsy.
  - intros items Hne. destruct items as [|first rest]; [contradiction|]. reflexivity.
  - intros rest. reflexivity.
  - intros ->. reflexivity.
  - intros Hnull Htype. unfold ArcDiagramData.coerce. rewrite Htype.
    destruct item; try discriminate Hnull.
    cbn [checkers.is_dict ArcDiagramData.is_null]. now rewrite Hnull.
  - intros Hnum. destruct item; try discriminate Hnum; reflexivity.
  - intros s -> Hdict Hnum. unfold ArcDiagramData.coerce.
    cbn [checkers.is_type checkers.class_names existsb String.eqb Ascii.eqb
         Bool.eqb orb checkers.is_dict ArcDiagramData.is_null isinstance].
    now rewrite Hdict, Hnum.
  - intros item0 item1 item2 ->. reflexivity.
  - intros items -> Hlen.
    destruct items as [|a [|b [|c [|d items]]]]; try reflexivity.
    now destruct Hlen.
  - intros Htype Hdict Hnull Hnum Hiter. unfold ArcDiagramData.coerce.
    now rewrite Htype, Hdict, Hnull, Hnum, Hiter.
  - cbn. tauto.
Qed.

End FromListProperties.

(** * Closed examples *)

(** C1: two series of one item each. *)
Lemma copy_dict_key_series_same_length_example :
  Chart._copy_dict_key same_keys 1 "series"
    [("series", PList [PDict [("name", PStr "a")]])]
    (PDict [("series", PList [PDict [("name", PStr "b")]])]) true []
  = Some (Ok PNone).
Proof.
  apply (copy_dict_key_series_same_length same_keys 0
           [("series", PList [PDict [("name", PStr "a")]])]
           [("series", PList [PDict [("name", PStr "b")]])]
           [PDict [("name", PStr "a")]] [PDict [("name", PStr "b")]] true []);
    [reflexivity | reflexivity | reflexivity | discriminate | reflexivity].
Defined.

(** C2 as stated fails: under ['data'] the dict of [other] comes back as it
    is, not merged; and a key that [other] lacks raises as soon as the dict of
    [original] has a key of its own. *)
Lemma copy_dict_key_sub_dict_not_merged :
  Chart._copy_dict_key same_keys 2 "data"
    [("data", PDict [("csv", PStr "a,b")])]
    (PDict [("data", PDict [("csv", PStr "c,d")])]) true []
  = Some (Ok (PDict [("csv", PStr "c,d")]))
  /\ Chart._copy_dict_key same_keys 2 "chart"
       [("chart", PDict [("type", PStr "line")])] (PDict []) true []
     = Some (Raise AttributeError).
Proof. split; reflexivity. Qed.

(** C2, as amended: a chart section merged into one that sets part of it. *)
Lemma copy_dict_key_merges_sub_dict_example :
  exists new_value,
    Chart._copy_dict_key same_keys 2 "chart"
      [("chart", PDict [("type", PStr "line"); ("height", PInt 300)])]
      (PDict [("chart", PDict [("type", PStr "bar")])]) false []
    = Some (Ok (PDict new_value))
    /\ dict_keys new_value = ["type"; "height"]
    /\ forall subkey,
         In subkey ["type"; "height"] ->
         Chart._copy_dict_key same_keys 2 subkey
           [("type", PStr "line"); ("height", PInt 300)]
           (PDict [("type", PStr "bar")]) false []
         = Some (Ok (dict_get new_value subkey PNone)).
Proof.
  apply (copy_dict_key_merges_sub_dict same_keys 2 "chart"
           [("chart", PDict [("type", PStr "line"); ("height", PInt 300)])]
           [("chart", PDict [("type", PStr "bar")])]
           [("type", PStr "line"); ("height", PInt 300)] false []).
  - cbn. lia.
  - reflexivity.
  - reflexivity.
  - repeat constructor; cbn; intuition discriminate.
  - reflexivity.
Defined.

(** C4 as stated fails: a scalar under ['data'] is not overwritten although
    [overwrite] is on; and a value that [other] has set to [False] is
    overwritten although [overwrite] is off. *)
Lemma copy_dict_key_scalar_leaf_not_by_policy :
  Chart._copy_dict_key same_keys 1 "data"
    [("data", PInt 1)] (PDict [("data", PInt 2)]) true []
  = Some (Ok (PInt 2))
  /\ Chart._copy_dict_key same_keys 1 "enabled"
       [("enabled", PBool true)] (PDict [("enabled", PBool false)]) false []
     = Some (Ok (PBool true)).
Proof. split; reflexivity. Qed.

(** C4, as amended: a title that [other] has set is kept when [overwrite] is off. *)
Lemma copy_dict_key_scalar_leaf_policy_example :
  Chart._copy_dict_key same_keys 1 "title"
    [("title", PStr "a")] (PDict [("title", PStr "b")]) false []
  = Some (Ok (PStr "b")).
Proof.
  apply (proj2 (copy_dict_key_scalar_leaf_policy same_keys 0 "title"
                  [("title", PStr "a")] [("title", PStr "b")] (PStr "a") false []
                  eq_refl eq_refl eq_refl));
    reflexivity.
Defined.

(** C9: a call on a tree of height 3, with a budget of 5. *)
Lemma copy_dict_key_terminates_example :
  exists outcome,
    Chart._copy_dict_key same_keys 3 "series"
      [("series", PList [PDict [("name", PStr "a")]; PDict [("id", PInt 1)]])]
      (PDict [("series", PList [PDict [("name", PStr "b")]])]) true []
    = Some outcome
    /\ Chart._copy_dict_key same_keys 5 "series"
         [("series", PList [PDict [("name", PStr "a")]; PDict [("id", PInt 1)]])]
         (PDict [("series", PList [PDict [("name", PStr "b")]])]) true []
       = Some outcome.
Proof.
  apply (copy_dict_key_terminates same_keys 5 "series"
           [("series", PList [PDict [("name", PStr "a")]; PDict [("id", PInt 1)]])]
           (PDict [("series", PList [PDict [("name", PStr "b")]])]) true []).
  cbn. lia.
Defined.

(** C5: a chart with options set, exported without a server instance: the
    call carries no options. *)
Lemma download_chart_ignores_the_chart_example :
  Chart.download_chart
    (Chart.mk PNone (PStr "target") (PObj ["HighchartsOptions"] []) PNone)
    PNone PNone PNone (PFloat 0.5) PNone []
  = Chart.download_chart unset_chart PNone PNone PNone (PFloat 0.5) PNone []
  /\ dict_lookup "options"
       [("filename", PNone); ("auth_user", PNone); ("auth_password", PNone);
        ("timeout", PFloat 0.5)]
     = None.
Proof.
  destruct (download_chart_ignores_the_chart
              (Chart.mk PNone (PStr "target") (PObj ["HighchartsOptions"] []) PNone)
              unset_chart PNone PNone PNone (PFloat 0.5) PNone [])
    as [Hsame [Hget _]].
  split; [exact Hsame|].
  exact (Hget _ eq_refl).
Defined.

(** C7: a chart with a container and options. *)
Lemma kwargs_from_untrimmed_dict_example :
  Chart._get_kwargs_from_dict
    (Chart._to_untrimmed_dict
       (Chart.mk PNone (PStr "target") (PObj ["HighchartsOptions"] []) (PStr "chart1")))
  = [ ("callback", PNone);
      ("container", PStr "target");
      ("options", PObj ["HighchartsOptions"] []);
      ("variable_name", PNone) ].
Proof.
  apply (proj1 (proj2 kwargs_from_untrimmed_dict)
           (Chart.mk PNone (PStr "target") (PObj ["HighchartsOptions"] []) (PStr "chart1"))).
  reflexivity.
Defined.

(** C8 as stated fails: an empty list, the number zero and [False] are not
    strings, yet [Chart.container] takes each without an error and stores
    [None]; and the string ['1.5'] is not a number, yet
    [ArcDiagramData.weight] takes it and stores the float 1.5. *)
Lemma setters_take_more_than_claimed :
  Chart.set_container (Chart.mk PNone (PStr "old") PNone PNone) (PList [])
  = Ok unset_chart
  /\ Chart.set_container (Chart.mk PNone (PStr "old") PNone PNone) (PInt 0)
     = Ok unset_chart
  /\ Chart.set_container (Chart.mk PNone (PStr "old") PNone PNone) (PBool false)
     = Ok unset_chart
  /\ ArcDiagramData.set_weight float_of_one_literal
       (ArcDiagramData.mk PNone PNone PNone unset_base) (PStr "1.5")
     = Ok (ArcDiagramData.mk PNone PNone (PFloat 1.5) unset_base).
Proof. repeat split; reflexivity. Qed.

(** C8, as amended: a list with an item in it is refused as a container. *)
Lemma setters_validate_example :
  Chart.set_container unset_chart (PList [PStr "target"]) = Raise CannotCoerceError.
Proof.
  destruct (setters_validate no_float unset_chart
              (ArcDiagramData.mk PNone PNone PNone unset_base)
              (PList [PStr "target"]))
    as (_ & _ & Hrefused & _).
  apply Hrefused; [reflexivity | discriminate].
Defined.

(** C10 as stated fails: a list of three numbers is of length 3, yet it
    neither becomes a data point nor raises [HighchartsValueError]: the
    validator of [from_] refuses the number. *)
Lemma from_list_refuses_numbered_nodes :
  ArcDiagramData.from_list no_float (fun _ => false) (fun _ => None) init_unset
    from_no_dict (PList [PList [PInt 1; PInt 2; PInt 3]])
  = Raise CannotCoerceError.
Proof. reflexivity. Qed.

(** C10, as amended: a link between two named nodes. *)
Lemma from_list_coerces_example :
  ArcDiagramData.coerce no_float (fun _ => false) init_unset from_no_dict
    (PList [PStr "a"; PStr "b"; PInt 3])
  = Ok (ArcDiagramData.Built
          (ArcDiagramData.mk (PStr "a") (PStr "b") (PInt 3) unset_base)).
Proof.
  destruct (from_list_coerces no_float (fun _ => false) (fun _ => None) init_unset
              from_no_dict (PList [PStr "a"; PStr "b"; PInt 3]))
    as (_ & _ & _ & _ & _ & _ & _ & Htriple & _).
  rewrite (Htriple _ _ _ eq_refl). reflexivity.
Defined.

(** * Further properties of the deep option merge *)

Section DeepMergeFurther.

Variable dicts_equivalent : dict -> dict -> bool.

Local Abbreviation copy_dict_key := (Chart._copy_dict_key dicts_equivalent).

Lemma copy_dict_key_other_no_dict :
  forall fuel key original other overwrite kwargs,
    In key (dict_keys original) ->
    (forall d, other <> PDict d) ->
    copy_dict_key (S fuel) key original other overwrite kwargs
    = Some (Raise AttributeError).
Proof.
  intros fuel key original other overwrite kwargs Hkey Hother.
  cbn [Chart._copy_dict_key].
  destruct (dict_keys_lookup _ _ Hkey) as [v ->].
  destruct other; try reflexivity. now destruct (Hother d).
Qed.

(** X1. A key that [original] lacks raises [KeyError], whatever [other] is;
    and for a key that [original] has, an [other] that is no dict raises
    [AttributeError], also under ['data'] and ['points']. *)
Theorem copy_dict_key_errors_at_entry :
  forall fuel key original other overwrite kwargs,
    (dict_lookup key original = None ->
     copy_dict_key (S fuel) key original other overwrite kwargs
     = Some (Raise KeyError))
    /\ (In key (dict_keys original) ->
        (forall d, other <> PDict d) ->
        copy_dict_key (S fuel) key original other overwrite kwargs
        = Some (Raise AttributeError)).
Proof.
  intros fuel key original other overwrite kwargs. split.
  - intros Habsent. cbn [Chart._copy_dict_key]. now rewrite Habsent.
  - apply copy_dict_key_other_no_dict.
Qed.

(** X2. A sub-tree that [other] lacks is an error: for a key that is not
    special-cased and holds a non-empty dict in [original], the call raises
    [AttributeError] when [other] has no dict under that key. *)
Theorem copy_dict_key_missing_sub_tree :
  forall fuel key original other subkey v rest overwrite kwargs,
    preserved_key key kwargs = false ->
    dict_lookup key original = Some (PDict ((subkey, v) :: rest)) ->
    (forall d, dict_get other key PNone <> PDict d) ->
    copy_dict_key (S (S fuel)) key original (PDict other) overwrite kwargs
    = Some (Raise AttributeError).
Proof.
  intros fuel key original other subkey v rest overwrite kwargs Hkey Hlookup Hother.
  assert (Hfirst :
    copy_dict_key (S fuel) subkey ((subkey, v) :: rest) (dict_get other key PNone)
      overwrite kwargs = Some (Raise AttributeError)).
  { apply copy_dict_key_other_no_dict; [now left | exact Hother]. }
  remember (S fuel) as fuel' eqn:Hfuel.
  cbn [Chart._copy_dict_key]. rewrite Hlookup. cbn [py_get].
  unfold preserved_key in Hkey.
  destruct (truthy (Chart.preserve_data_of kwargs)).
  - rewrite andb_true_r in Hkey.
    apply orb_false_elim in Hkey as [Hkey Hseries].
    apply orb_false_elim in Hkey as [Hdata Hpoints].
    rewrite Hdata, Hpoints, Hseries. cbn [andb dict_keys map fst Chart.copy_subkeys].
    now rewrite Hfirst.
  - rewrite !andb_false_r. cbn [dict_keys map fst Chart.copy_subkeys].
    now rewrite Hfirst.
Qed.

(** X3. A list under a key that is not special-cased: with [overwrite] on the
    list of [original] is returned; with [overwrite] off the value of [other]
    is returned, which is [None] when [other] has none. *)
Theorem copy_dict_key_list_policy :
  forall fuel key original other items overwrite kwargs,
    preserved_key key kwargs = false ->
    dict_lookup key original = Some (PList items) ->
    copy_dict_key (S fuel) key original (PDict other) overwrite kwargs
    = Some (Ok (if overwrite then PList items else dict_get other key PNone)).
Proof.
  intros fuel key original other items overwrite kwargs Hkey Hlookup.
  cbn [Chart._copy_dict_key]. rewrite Hlookup. cbn [py_get].
  unfold preserved_key in Hkey.
  destruct (truthy (Chart.preserve_data_of kwargs)).
  - rewrite andb_true_r in Hkey.
    apply orb_false_elim in Hkey as [Hkey Hseries].
    apply orb_false_elim in Hkey as [Hdata Hpoints].
    rewrite Hdata, Hpoints, Hseries. cbn [andb]. now destruct overwrite.
  - rewrite !andb_false_r. now destruct overwrite.
Qed.

(** X4. While [preserve_data] is on, a ['series'] list of [original] is
    taken over as it is when [other] has no series or an empty one. *)
Theorem copy_dict_key_series_unset :
  forall fuel original other originals overwrite kwargs,
    truthy (Chart.preserve_data_of kwargs) = true ->
    dict_lookup "series" original = Some (PList originals) ->
    truthy (dict_get other "series" PNone) = false ->
    copy_dict_key (S fuel) "series" original (PDict other) overwrite kwargs
    = Some (Ok (PList originals)).
Proof.
  intros fuel original other originals overwrite kwargs Hpreserve Hlookup Hunset.
  cbn [Chart._copy_dict_key]. rewrite Hlookup. cbn [py_get].
  rewrite Hpreserve, Hunset. reflexivity.
Qed.

(** *** Dicts with distinct keys *)

Lemma keys_distinct_NoDup (keys : list string) :
  keys_distinct keys = true -> NoDup keys.
Proof.
  induction keys as [|key rest IH]; cbn [keys_distinct]; intros H; constructor.
  - apply andb_true_iff in H as [Hfresh _]. intros Hin.
    apply negb_true_iff in Hfresh.
    assert (existsb (String.eqb key) rest = true) as Hex
      by (apply existsb_exists; exists key; split; [exact Hin | apply String.eqb_refl]).
    congruence.
  - apply IH. now apply andb_true_iff in H as [_ H].
Qed.

(** Two dicts with the same distinct keys, in the same order, and the same
    value under each key are the same dict. *)
Lemma dict_ext (a : dict) :
  forall b : dict,
    dict_keys a = dict_keys b ->
    NoDup (dict_keys a) ->
    (forall key, In key (dict_keys a) -> dict_lookup key a = dict_lookup key b) ->
    a = b.
Proof.
  induction a as [|[k v] a IH]; intros [|[k' v'] b] Hkeys Hnodup Hsame;
    try discriminate Hkeys; [reflexivity|].
  cbn [dict_keys map fst] in Hkeys, Hnodup. injection Hkeys as <- Hkeys.
  inversion Hnodup as [|? ? Hfresh Hnodup']; subst.
  pose proof (Hsame k (or_introl eq_refl)) as Hhead.
  cbn [dict_lookup] in Hhead. rewrite String.eqb_refl in Hhead.
  injection Hhead as <-. f_equal.
  apply IH; [exact Hkeys | exact Hnodup' |].
  intros key Hkey. specialize (Hsame key (or_intror Hkey)).
  cbn [dict_lookup] in Hsame.
  rewrite eqb_false_of_neq in Hsame by (intros ->; contradiction).
  exact Hsame.
Qed.

Lemma distinct_keys_lookup (d : dict) (key : string) (v : pyval) :
  distinct_keys (PDict d) = true -> dict_lookup key d = Some v ->
  distinct_keys v = true.
Proof.
  intros Hd Hlookup. cbn [distinct_keys] in Hd.
  apply andb_true_iff in Hd as [_ Hd]. rewrite forallb_forall in Hd.
  apply (Hd (key, v)). now apply dict_lookup_in.
Qed.

(** X5. With [overwrite] on and [preserve_data] off, the merge is a copy:
    whenever the call returns, it returns the value of [original] as it is,
    whatever [other] holds. *)
Theorem copy_dict_key_overwrite_is_copy :
  forall fuel key original other original_value kwargs v,
    truthy (Chart.preserve_data_of kwargs) = false ->
    dict_lookup key original = Some original_value ->
    distinct_keys original_value = true ->
    copy_dict_key fuel key original other true kwargs = Some (Ok v) ->
    v = original_value.
Proof.
  induction fuel as [|fuel IH];
    intros key original other original_value kwargs v Hoff Hlookup Hdistinct H;
    [discriminate H|].
  cbn [Chart._copy_dict_key] in H. rewrite Hlookup, Hoff in H.
  destruct (py_get other key) as [other_value|e]; [|discriminate H].
  rewrite !andb_false_r in H.
  destruct original_value as [| | | | | |d|];
    try (cbn [checkers.is_iterable_no_literals] in H; rewrite ?andb_false_r in H;
         now injection H as <-).
  match type of H with
  | context [Chart.copy_subkeys ?c ?ks ?o ?x ?acc] =>
      destruct (Chart.copy_subkeys c ks o x acc) as [[merged|e]|] eqn:Hloop;
        try discriminate H
  end.
  injection H as <-. f_equal. symmetry.
  pose proof Hdistinct as Hkeys. cbn [distinct_keys] in Hkeys.
  apply andb_true_iff in Hkeys as [Hkeys _]. apply keys_distinct_NoDup in Hkeys.
  destruct (copy_subkeys_entries _ _ _ _ _ _ Hloop) as [Hentries _].
  apply dict_ext.
  - symmetry. exact (copy_subkeys_keys _ d other_value (dict_keys d) [] merged Hkeys Hloop).
  - exact Hkeys.
  - intros subkey Hsubkey.
    destruct (Hentries subkey Hsubkey) as [w [Hw ->]].
    destruct (dict_keys_lookup _ _ Hsubkey) as [x Hx]. rewrite Hx. f_equal.
    symmetry. apply (IH _ _ _ _ _ _ Hoff Hx (distinct_keys_lookup _ _ _ Hdistinct Hx) Hw).
Qed.

(** *** The series branch *)

Lemma match_series_length (originals others : list pyval) :
  forall matched_series new_series,
    Chart.match_series dicts_equivalent originals others = (matched_series, new_series) ->
    List.length matched_series + List.length new_series = List.length originals.
Proof.
  induction originals as [|o originals IH]; cbn [Chart.match_series];
    intros matched_series new_series Heq.
  - now injection Heq as <- <-.
  - destruct (Chart.match_series dicts_equivalent originals others) as [m n].
    specialize (IH m n eq_refl).
    destruct (Chart.find_match dicts_equivalent o others);
      injection Heq as <- <-; cbn [List.length]; lia.
Qed.

Lemma match_series_sorts (originals others : list pyval) :
  forall matched_series new_series original_item,
    Chart.match_series dicts_equivalent originals others = (matched_series, new_series) ->
    In original_item originals ->
    match Chart.find_match dicts_equivalent original_item others with
    | Some other_item => In (original_item, other_item) matched_series
    | None => In original_item new_series
    end.
Proof.
  induction originals as [|o originals IH]; cbn [Chart.match_series];
    intros matched_series new_series original_item Heq Hin; [contradiction|].
  destruct (Chart.match_series dicts_equivalent originals others) as [m n].
  specialize (IH m n original_item eq_refl).
  destruct Hin as [-> | Hin].
  - destruct (Chart.find_match dicts_equivalent original_item others);
      injection Heq as <- <-; now left.
  - specialize (IH Hin).
    destruct (Chart.find_match dicts_equivalent o others);
      injection Heq as <- <-;
      destruct (Chart.find_match dicts_equivalent original_item others);
      solve [exact IH | now right].
Qed.

Section SeriesLoops.

Variable copy : string -> dict -> pyval -> option (result pyval).

Lemma update_matched_length :
  forall matched_series updated,
    Chart.update_matched copy matched_series = Some (Ok updated) ->
    List.length updated = List.length matched_series.
Proof.
  induction matched_series as [|[original_item other_item] rest IH];
    intros updated; cbn [Chart.update_matched]; intros H.
  - now injection H as <-.
  - destruct original_item; try discriminate H.
    destruct (Chart.copy_into_new_item copy (dict_keys d) d []) as [[new_item|e]|];
      try discriminate H.
    destruct (Chart.update_matched copy rest) as [[updated'|e]|]; try discriminate H.
    injection H as <-. cbn [List.length]. f_equal. now apply IH.
Qed.

Lemma update_matched_rebuilds :
  forall matched_series updated item other_item,
    Chart.update_matched copy matched_series = Some (Ok updated) ->
    In (PDict item, other_item) matched_series ->
    exists new_item,
      In (PDict new_item) updated
      /\ Chart.copy_into_new_item copy (dict_keys item) item [] = Some (Ok new_item).
Proof.
  induction matched_series as [|[original_item x] rest IH];
    intros updated item other_item; cbn [Chart.update_matched]; intros H Hin;
    [contradiction|].
  destruct original_item; try discriminate H.
  destruct (Chart.copy_into_new_item copy (dict_keys d) d []) as [[new_item|e]|] eqn:Hitem;
    try discriminate H.
  destruct (Chart.update_matched copy rest) as [[updated'|e]|]; try discriminate H.
  injection H as <-. destruct Hin as [Hhead | Hin].
  - injection Hhead as -> _. exists new_item. split; [now left | exact Hitem].
  - destruct (IH updated' item other_item eq_refl Hin) as [found [Hfound Hloop]].
    exists found. split; [now right | exact Hloop].
Qed.

End SeriesLoops.

Lemma dict_lookup_fresh (key : string) (d : dict) :
  ~ In key (dict_keys d) -> dict_lookup key d = None.
Proof.
  intros Hfresh. destruct (dict_lookup key d) as [v|] eqn:E; [|reflexivity].
  destruct Hfresh. apply dict_lookup_in in E.
  apply in_map_iff. now exists (key, v).
Qed.

(** What a call under ['data'] or ['points'] returns while [preserve_data] is on. *)
Lemma copy_dict_key_preserved_value :
  forall fuel key original other overwrite kwargs v,
    key = "data" \/ key = "points" ->
    truthy (Chart.preserve_data_of kwargs) = true ->
    copy_dict_key fuel key original (PDict other) overwrite kwargs = Some (Ok v) ->
    v = dict_get other key PNone.
Proof.
  intros [|fuel] key original other overwrite kwargs v Hkey Hon H; [discriminate H|].
  cbn [Chart._copy_dict_key] in H.
  destruct (dict_lookup key original); [|discriminate H].
  cbn [py_get] in H. rewrite Hon in H.
  destruct Hkey as [-> | ->]; cbn in H; now injection H as <-.
Qed.

(** The loop that rebuilds a matched item never finds a value for the key at
    hand in the dict it is building: the keys are distinct. *)
Lemma copy_into_new_item_entries (fuel : nat) (overwrite : bool) (kwargs : dict)
    (original_item : dict) :
  truthy (Chart.preserve_data_of kwargs) = true ->
  forall subkeys new_item rebuilt,
    NoDup (dict_keys new_item ++ subkeys) ->
    Chart.copy_into_new_item
      (fun subkey original' other' =>
         copy_dict_key fuel subkey original' other' overwrite kwargs)
      subkeys original_item new_item = Some (Ok rebuilt) ->
    dict_keys rebuilt = dict_keys new_item ++ subkeys
    /\ (forall key, ~ In key subkeys -> dict_lookup key rebuilt = dict_lookup key new_item)
    /\ (forall key, key = "data" \/ key = "points" -> In key subkeys ->
          dict_lookup key rebuilt = Some PNone).
Proof.
  intros Hon. induction subkeys as [|subkey rest IH]; intros new_item rebuilt Hnodup;
    cbn [Chart.copy_into_new_item]; intros H.
  - injection H as <-. rewrite app_nil_r. repeat split; intros key _ [].
  - destruct (copy_dict_key fuel subkey original_item (PDict new_item) overwrite kwargs)
      as [[v|e]|] eqn:Hcall; try discriminate H.
    assert (Hfresh : ~ In subkey (dict_keys new_item)).
    { intros Hin. apply NoDup_remove_2 in Hnodup. apply Hnodup.
      apply in_or_app. now left. }
    assert (Hlater : ~ In subkey rest).
    { intros Hin. apply NoDup_remove_2 in Hnodup. apply Hnodup.
      apply in_or_app. now right. }
    apply IH in H; [|rewrite dict_keys_set_new by exact Hfresh; now rewrite <- app_assoc].
    destruct H as (Hkeys & Hout & Hdata). repeat split.
    + rewrite Hkeys, dict_keys_set_new by exact Hfresh. now rewrite <- app_assoc.
    + intros key Hkey. rewrite Hout by (intros Hin; apply Hkey; now right).
      apply dict_lookup_set_other. intros ->. apply Hkey. now left.
    + intros key Hspecial [<- | Hin]; [|now apply Hdata].
      rewrite (Hout _ Hlater), dict_lookup_set_same. f_equal.
      rewrite (copy_dict_key_preserved_value _ _ _ _ _ _ _ Hspecial Hon Hcall).
      unfold dict_get. now rewrite dict_lookup_fresh.
Qed.

(** X6. While [preserve_data] is on, reconciling two series lists of
    different lengths returns a list with as many items as the series of
    [original], in which every item of [original] that has no equivalent in
    [other] is present as it is. *)
Theorem copy_dict_key_series_keeps_count :
  forall fuel original other originals others overwrite kwargs v,
    truthy (Chart.preserve_data_of kwargs) = true ->
    dict_lookup "series" original = Some (PList originals) ->
    dict_lookup "series" other = Some (PList others) ->
    others <> [] ->
    List.length others <> List.length originals ->
    copy_dict_key fuel "series" original (PDict other) overwrite kwargs = Some (Ok v) ->
    exists reconciled,
      v = PList reconciled
      /\ List.length reconciled = List.length originals
      /\ forall original_item,
           In original_item originals ->
           Chart.find_match dicts_equivalent original_item others = None ->
           In original_item reconciled.
Proof.
  intros [|fuel] original other originals others overwrite kwargs v
    Hon Horiginal Hother Hne Hlen H; [discriminate H|].
  cbn [Chart._copy_dict_key] in H. rewrite Horiginal in H. cbn [py_get] in H.
  unfold dict_get in H. rewrite Hother, Hon in H.
  cbn [String.eqb Ascii.eqb Bool.eqb andb] in H.
  destruct others as [|x others']; [contradiction|].
  cbn [truthy negb py_len py_iter] in H.
  apply Nat.eqb_neq in Hlen. rewrite Hlen in H. cbn [negb] in H.
  destruct (Chart.match_series dicts_equivalent originals (x :: others'))
    as [matched_series new_series] eqn:Hmatch.
  match type of H with
  | context [Chart.update_matched ?c ?m] =>
      destruct (Chart.update_matched c m) as [[updated|e]|] eqn:Hupdated;
        try discriminate H
  end.
  injection H as <-. exists (updated ++ new_series). split; [reflexivity|]. split.
  - rewrite length_app, (update_matched_length _ _ _ Hupdated).
    apply (match_series_length _ _ _ _ Hmatch).
  - intros original_item Hin Hnone.
    pose proof (match_series_sorts _ _ _ _ original_item Hmatch Hin) as Hsorted.
    rewrite Hnone in Hsorted. apply in_or_app. now right.
Qed.

(** X7. While [preserve_data] is on, an item of the series of [original]
    that has an equivalent in [other] is rebuilt with the same keys, and what
    it held under ['data'] and ['points'] is replaced by [None]. *)
Theorem copy_dict_key_series_rebuilds_matched :
  forall fuel original other originals others overwrite kwargs v item other_item,
    truthy (Chart.preserve_data_of kwargs) = true ->
    dict_lookup "series" original = Some (PList originals) ->
    dict_lookup "series" other = Some (PList others) ->
    List.length others <> List.length originals ->
    copy_dict_key fuel "series" original (PDict other) overwrite kwargs = Some (Ok v) ->
    In (PDict item) originals ->
    Chart.find_match dicts_equivalent (PDict item) others = Some other_item ->
    keys_distinct (dict_keys item) = true ->
    exists reconciled new_item,
      v = PList reconciled
      /\ In (PDict new_item) reconciled
      /\ dict_keys new_item = dict_keys item
      /\ forall key, key = "data" \/ key = "points" -> In key (dict_keys item) ->
           dict_lookup key new_item = Some PNone.
Proof.
  intros [|fuel] original other originals others overwrite kwargs v item other_item
    Hon Horiginal Hother Hlen H Hitem Hfound Hdistinct; [discriminate H|].
  cbn [Chart._copy_dict_key] in H. rewrite Horiginal in H. cbn [py_get] in H.
  unfold dict_get in H. rewrite Hother, Hon in H.
  cbn [String.eqb Ascii.eqb Bool.eqb andb] in H.
  destruct others as [|x others']; [discriminate Hfound|].
  cbn [truthy negb py_len py_iter] in H.
  apply Nat.eqb_neq in Hlen. rewrite Hlen in H. cbn [negb] in H.
  destruct (Chart.match_series dicts_equivalent originals (x :: others'))
    as [matched_series new_series] eqn:Hmatch.
  match type of H with
  | context [Chart.update_matched ?c ?m] =>
      destruct (Chart.update_matched c m) as [[updated|e]|] eqn:Hupdated;
        try discriminate H
  end.
  injection H as <-.
  pose proof (match_series_sorts _ _ _ _ (PDict item) Hmatch Hitem) as Hsorted.
  rewrite Hfound in Hsorted.
  destruct (update_matched_rebuilds _ _ _ _ _ Hupdated Hsorted)
    as [new_item [Hin Hloop]].
  apply keys_distinct_NoDup in Hdistinct.
  destruct (copy_into_new_item_entries fuel overwrite kwargs item Hon
              (dict_keys item) [] new_item Hdistinct Hloop) as (Hkeys & _ & Hdata).
  exists (updated ++ new_series), new_item.
  split; [reflexivity|]. split; [apply in_or_app; now left|].
  split; [exact Hkeys | exact Hdata].
Qed.

End DeepMergeFurther.

(** * The data and points of the other dict *)

Section DataAndPoints.

Variable dicts_equivalent : dict -> dict -> bool.

Local Abbreviation copy_dict_key := (Chart._copy_dict_key dicts_equivalent).



End DataAndPoints.

(** * Further properties of the chart object *)

Section SerialisationFurther.

Variable py_str : pyval -> string.
Variable serialize_to_js_literal : pyval -> string -> option string.
Variable method_to_js_literal : pyval -> string -> pyval.
Variable validators_path : pyval -> result pyval.

Local Abbreviation to_js_literal :=
  (Chart.to_js_literal py_str serialize_to_js_literal method_to_js_literal
     validators_path).

(** The string [to_js_literal] builds, whatever the file name. *)
Lemma to_js_literal_text :
  forall self filename encoding as_str writes,
    to_js_literal self filename encoding = Ok (as_str, writes) ->
    to_js_literal self PNone encoding = Ok (as_str, [])
    /\ exists path,
         (if truthy filename then validators_path filename else Ok filename) = Ok path
         /\ writes = if truthy path then [Chart.mk_write path encoding as_str] else [].
Proof.
  intros self filename encoding as_str writes H.
  unfold Chart.to_js_literal in H |- *. cbn [truthy bind] in H |- *.
  destruct (if truthy filename then validators_path filename else Ok filename)
    as [path|e]; [|discriminate H].
  cbn [bind] in H.
  destruct (truthy (Chart.container self)), (truthy (Chart.options self)),
    (truthy (Chart.callback self));
    injection H as <- <-; (split; [reflexivity | exists path; split; reflexivity]).
Qed.

(** X8. When [to_js_literal] returns, it has written nothing if no file name
    was given, and otherwise exactly one file: the string it returns, under
    the path [validators.path] made of the file name, in the given encoding.
    When [validators.path] refuses the file name, the call raises its error. *)
Theorem to_js_literal_writes_what_it_returns :
  forall self filename encoding,
    (forall as_str writes,
        to_js_literal self filename encoding = Ok (as_str, writes) ->
        (truthy filename = false -> writes = [])
        /\ (truthy filename = true ->
            exists path,
              validators_path filename = Ok path
              /\ (truthy path = true ->
                  writes = [Chart.mk_write path encoding as_str])))
    /\ (forall e,
          truthy filename = true -> validators_path filename = Raise e ->
          to_js_literal self filename encoding = Raise e).
Proof.
  intros self filename encoding. split.
  - intros as_str writes H.
    destruct (to_js_literal_text _ _ _ _ _ H) as [_ [path [Hpath ->]]]. split.
    + intros Hfalsy. rewrite Hfalsy in Hpath. injection Hpath as <-.
      now rewrite Hfalsy.
    + intros Htruthy. rewrite Htruthy in Hpath. exists path.
      split; [exact Hpath | now intros ->].
  - intros e Htruthy Hpath. unfold Chart.to_js_literal.
    now rewrite Htruthy, Hpath.
Qed.

(** X9. Except for a chart with a container and options but no callback, the
    string [to_js_literal] returns is the assignment prefix, then
    [new Highcharts.chart(], then the fragments of the fields that are set
    joined by the separator, then [);]. *)
Theorem to_js_literal_joins_the_parts :
  forall self filename encoding as_str writes,
    truthy (Chart.callback self) = true
    \/ truthy (Chart.container self) = false
    \/ truthy (Chart.options self) = false ->
    to_js_literal self filename encoding = Ok (as_str, writes) ->
    as_str
    = (signature_prefix py_str self
       ++ "new Highcharts.chart("
       ++ join Chart.separator (signature_parts py_str method_to_js_literal self encoding)
       ++ ");")%string.
Proof.
  intros self filename encoding as_str writes Hshape H.
  apply to_js_literal_text in H as [H _].
  unfold Chart.to_js_literal in H. cbn [truthy bind] in H.
  unfold signature_parts, signature_prefix.
  destruct (truthy (Chart.container self)) eqn:Hcontainer,
    (truthy (Chart.options self)) eqn:Hoptions,
    (truthy (Chart.callback self)) eqn:Hcallback;
    try (exfalso; destruct Hshape as [Hs | [Hs | Hs]]; discriminate Hs);
    injection H as <-;
    cbn [Chart.nonempty String.append String.eqb negb Nat.add Nat.ltb Nat.leb
         app join];
    repeat progress (rewrite ?string_append_assoc; cbn [String.append]);
    reflexivity.
Qed.

End SerialisationFurther.

(** X10. [download_chart] raises exactly when it is given a server instance
    that is no [ExportServer], and the error is then [HighchartsValueError]. *)
Theorem download_chart_refuses_other_servers :
  forall self filename auth_user auth_password timeout server_instance kwargs e,
    Chart.download_chart self filename auth_user auth_password timeout
      server_instance kwargs = Raise e
    <-> (e = HighchartsValueError
         /\ truthy server_instance = true
         /\ isinstance server_instance "ExportServer" = false).
Proof.
  intros self filename auth_user auth_password timeout server_instance kwargs e.
  unfold Chart.download_chart.
  destruct (truthy server_instance), (isinstance server_instance "ExportServer");
    cbn [negb]; split; try discriminate; try (intros (_ & H & H'); discriminate).
  - intros H. injection H as <-. repeat split.
  - intros (-> & _). reflexivity.
Qed.

(** * Further properties of the validated attributes *)

Lemma validators_string_stores (value validated : pyval) :
  validators.string value true = Ok validated -> stored_string validated = true.
Proof.
  unfold validators.string. destruct (truthy value) eqn:Htruthy; cbn [negb].
  - destruct value; try discriminate. intros H. injection H as <-. exact Htruthy.
  - intros H. now injection H as <-.
Qed.

Lemma validators_string_keeps (value : pyval) :
  stored_string value = true -> validators.string value true = Ok value.
Proof.
  destruct value; try discriminate; [reflexivity|].
  cbn [stored_string]. intros H. unfold validators.string. cbn [truthy].
  now rewrite H.
Qed.

Lemma validators_numeric_stores (float_ : string -> option float)
    (value validated : pyval) :
  validators.numeric float_ value true = Ok validated -> stored_number validated = true.
Proof.
  destruct value; cbn [validators.numeric]; try discriminate;
    try (intros H; now injection H as <-).
  destruct (float_ s); [|discriminate]. intros H. now injection H as <-.
Qed.

Lemma validators_numeric_keeps (float_ : string -> option float) (value : pyval) :
  stored_number value = true -> validators.numeric float_ value true = Ok value.
Proof. destruct value; try discriminate; reflexivity. Qed.

(** X11. A successful assignment to [Chart.container] changes the container
    alone; the chart then holds [None] or a non-empty string there, and
    assigning the value read from the getter again changes nothing. *)
Theorem set_container_keeps_the_rest :
  forall self value self',
    Chart.set_container self value = Ok self' ->
    Chart.callback self' = Chart.callback self
    /\ Chart.options self' = Chart.options self
    /\ Chart.variable_name self' = Chart.variable_name self
    /\ stored_string (Chart.container self') = true
    /\ Chart.set_container self' (Chart.container self') = Ok self'.
Proof.
  intros self value self'. unfold Chart.set_container.
  destruct (validators.string value true) as [validated|e] eqn:Hvalid;
    [|discriminate].
  cbn [bind]. intros H. injection H as <-.
  pose proof (validators_string_stores _ _ Hvalid) as Hstored.
  repeat split; try exact Hstored.
  cbn [Chart.container Chart._container].
  now rewrite (validators_string_keeps _ Hstored).
Qed.

Section PointFurther.

Variable float_ : string -> option float.
Variable json_dict : string -> bool.
Variable validators_json : string -> option pyval.
Variable DataBase_init : dict -> result DataBase.t.
Variable from_dict : pyval -> result ArcDiagramData.t.

Local Abbreviation init := (ArcDiagramData.__init__ float_ DataBase_init).
Local Abbreviation coerce :=
  (ArcDiagramData.coerce float_ json_dict DataBase_init from_dict).
Local Abbreviation coerce_all :=
  (ArcDiagramData.coerce_all float_ json_dict DataBase_init from_dict).
Local Abbreviation from_list :=
  (ArcDiagramData.from_list float_ json_dict validators_json DataBase_init from_dict).

(** X12. The constructor establishes, and each of the three setters keeps,
    that [from_] and [to] hold [None] or a non-empty string and that [weight]
    holds [None] or a number. *)
Theorem validated_point_invariant :
  (forall kwargs self, init kwargs = Ok self -> validated_point self = true)
  /\ (forall self value self',
        validated_point self = true ->
        ArcDiagramData.set_from_ self value = Ok self'
        \/ ArcDiagramData.set_to self value = Ok self'
        \/ ArcDiagramData.set_weight float_ self value = Ok self' ->
        validated_point self' = true).
Proof.
  split.
  - intros kwargs self. unfold ArcDiagramData.__init__.
    destruct (validators.string (dict_get kwargs "from_" PNone) true)
      as [from_|e] eqn:Hfrom; [|discriminate].
    destruct (validators.string (dict_get kwargs "to" PNone) true)
      as [to|e] eqn:Hto; [|discriminate].
    destruct (validators.numeric float_ (dict_get kwargs "weight" PNone) true)
      as [weight|e] eqn:Hweight; [|discriminate].
    cbn [bind]. destruct (DataBase_init kwargs); [|discriminate].
    cbn [bind]. intros H. injection H as <-.
    unfold validated_point.
    cbn [ArcDiagramData.from_ ArcDiagramData.to ArcDiagramData.weight
         ArcDiagramData._from_ ArcDiagramData._to ArcDiagramData._weight].
    now rewrite (validators_string_stores _ _ Hfrom),
      (validators_string_stores _ _ Hto), (validators_numeric_stores _ _ _ Hweight).
  - intros self value self' Hvalid H. unfold validated_point in Hvalid |- *.
    apply andb_true_iff in Hvalid as [Hvalid Hweight].
    apply andb_true_iff in Hvalid as [Hfrom Hto].
    unfold ArcDiagramData.set_from_, ArcDiagramData.set_to,
      ArcDiagramData.set_weight in H.
    destruct H as [H | [H | H]].
    + destruct (validators.string value true) as [v|e] eqn:Hv; [|discriminate H].
      injection H as <-.
      cbn [ArcDiagramData.from_ ArcDiagramData.to ArcDiagramData.weight
           ArcDiagramData._from_ ArcDiagramData._to ArcDiagramData._weight].
      unfold ArcDiagramData.to, ArcDiagramData.weight in Hto, Hweight.
      now rewrite (validators_string_stores _ _ Hv), Hto, Hweight.
    + destruct (validators.string value true) as [v|e] eqn:Hv; [|discriminate H].
      injection H as <-.
      cbn [ArcDiagramData.from_ ArcDiagramData.to ArcDiagramData.weight
           ArcDiagramData._from_ ArcDiagramData._to ArcDiagramData._weight].
      unfold ArcDiagramData.from_, ArcDiagramData.weight in Hfrom, Hweight.
      now rewrite (validators_string_stores _ _ Hv), Hfrom, Hweight.
    + destruct (validators.numeric float_ value true) as [v|e] eqn:Hv;
        [|discriminate H].
      injection H as <-.
      cbn [ArcDiagramData.from_ ArcDiagramData.to ArcDiagramData.weight
           ArcDiagramData._from_ ArcDiagramData._to ArcDiagramData._weight].
      unfold ArcDiagramData.from_, ArcDiagramData.to in Hfrom, Hto.
      now rewrite (validators_numeric_stores _ _ _ Hv), Hfrom, Hto.
Qed.

(** X13. Writing a validated data point to its untrimmed dict, reading the
    keyword arguments back and constructing from them gives [from_], [to] and
    [weight] as they were; the call fails only if the inherited initialiser
    does. *)
Theorem init_from_untrimmed_dict :
  forall self,
    validated_point self = true ->
    let kwargs :=
      ArcDiagramData._get_kwargs_from_dict (ArcDiagramData._to_untrimmed_dict self) in
    init kwargs
    = (inherited <- DataBase_init kwargs ;;
       Ok (ArcDiagramData.mk (ArcDiagramData.from_ self) (ArcDiagramData.to self)
             (ArcDiagramData.weight self) inherited)).
Proof.
  intros self Hvalid kwargs. unfold validated_point in Hvalid.
  apply andb_true_iff in Hvalid as [Hvalid Hweight].
  apply andb_true_iff in Hvalid as [Hfrom Hto].
  unfold ArcDiagramData.__init__.
  replace (dict_get kwargs "from_" PNone) with (ArcDiagramData.from_ self)
    by reflexivity.
  replace (dict_get kwargs "to" PNone) with (ArcDiagramData.to self) by reflexivity.
  replace (dict_get kwargs "weight" PNone) with (ArcDiagramData.weight self)
    by reflexivity.
  now rewrite (validators_string_keeps _ Hfrom), (validators_string_keeps _ Hto),
    (validators_numeric_keeps float_ _ Hweight).
Qed.

(** *** The collection [from_list] returns *)

Lemma coerce_all_points (items : list pyval) :
  forall collection,
    coerce_all items = Ok collection
    <-> Forall2 (fun item as_obj => coerce item = Ok as_obj) items collection.
Proof.
  induction items as [|item rest IH]; intros collection;
    cbn [ArcDiagramData.coerce_all].
  - split.
    + intros H. injection H as <-. constructor.
    + intros H. now inversion H.
  - destruct (coerce item) as [as_obj|e] eqn:Hitem; cbn [bind].
    + destruct (coerce_all rest) as [points|e] eqn:Hrest; cbn [bind].
      * split.
        -- intros H. injection H as <-. constructor; [exact Hitem | now apply IH].
        -- intros H. inversion H as [|? p ? ps Hp Hps]; subst.
           apply IH in Hps. injection Hps as <-. congruence.
      * split; [discriminate|].
        intros H. inversion H as [|? p ? ps Hp Hps]; subst.
        apply IH in Hps. discriminate Hps.
    + split; [discriminate|].
      intros H. inversion H as [|? p ? ps Hp Hps]; subst. congruence.
Qed.

Lemma coerce_all_first_error (items : list pyval) :
  forall e,
    coerce_all items = Raise e ->
    exists coerced item rest collection,
      items = coerced ++ item :: rest
      /\ coerce_all coerced = Ok collection
      /\ coerce item = Raise e.
Proof.
  induction items as [|item rest IH]; intros e; cbn [ArcDiagramData.coerce_all];
    [discriminate|].
  destruct (coerce item) as [as_obj|e'] eqn:Hitem; cbn [bind].
  - destruct (coerce_all rest) as [points|e''] eqn:Hrest; cbn [bind]; [discriminate|].
    intros H. injection H as ->.
    destruct (IH e eq_refl) as (coerced & bad & rest' & collection & -> & Hok & Hbad).
    exists (item :: coerced), bad, rest', (as_obj :: collection).
    repeat split; [|exact Hbad].
    cbn [ArcDiagramData.coerce_all]. now rewrite Hitem, Hok.
  - intros H. injection H as ->. exists [], item, rest, []. now repeat split.
Qed.

Lemma from_list_of_list (items : list pyval) :
  from_list (PList items) = coerce_all items.
Proof. destruct items; reflexivity. Qed.

(** X14. [from_list] on a list returns one member for each item, in order:
    the member at a position is what the item at that position is coerced to,
    and an item that is a [SinglePointData] is the member itself. When the
    call raises, the error is that of the first item that cannot be coerced,
    every item before it having been coerced. *)
Theorem from_list_item_by_item :
  forall items,
    (forall collection,
        from_list (PList items) = Ok collection
        <-> Forall2 (fun item as_obj => coerce item = Ok as_obj) items collection)
    /\ (forall collection,
          from_list (PList items) = Ok collection ->
          List.length collection = List.length items
          /\ forall position item,
               nth_error items position = Some item ->
               checkers.is_type item "SinglePointData" = true ->
               nth_error collection position = Some (ArcDiagramData.Given item))
    /\ (forall e,
          from_list (PList items) = Raise e ->
          exists coerced item rest collection,
            items = coerced ++ item :: rest
            /\ from_list (PList coerced) = Ok collection
            /\ coerce item = Raise e).
Proof.
  intros items. rewrite from_list_of_list. split; [|split].
  - apply coerce_all_points.
  - intros collection H. apply coerce_all_points in H. split.
    + symmetry. now apply Forall2_length in H.
    + induction H as [|first as_obj rest points Hfirst Hrest IH];
        intros [|position] item Hnth Htype; try discriminate Hnth.
      * injection Hnth as ->. unfold ArcDiagramData.coerce in Hfirst.
        rewrite Htype in Hfirst. cbn [nth_error]. now injection Hfirst as <-.
      * cbn [nth_error] in Hnth |- *. now apply (IH position item).
  - intros e H. destruct (coerce_all_first_error _ _ H)
      as (coerced & item & rest & collection & Hitems & Hok & Hbad).
    exists coerced, item, rest, collection. rewrite from_list_of_list.
    now repeat split.
Qed.

(** X15. A truthy value that is neither a string nor iterable is coerced as
    the one-item list holding it, and a non-empty dict as the list of its
    keys; a falsy value gives no member at all, although the one-item list
    holding it gives one. *)
Theorem from_list_wraps_what_it_is_given :
  forall value,
    (truthy value = true ->
     checkers.is_string value = false ->
     checkers.is_iterable value = false ->
     from_list value = from_list (PList [value]))
    /\ (forall d, value = PDict d -> d <> [] ->
        from_list value = from_list (PList (map PStr (dict_keys d))))
    /\ (truthy value = false ->
        from_list value = Ok []
        /\ from_list (PList [value])
           = (as_obj <- coerce value ;; Ok [as_obj])).
Proof.
  intros value. split; [|split].
  - intros Htruthy Hstring Hiterable. unfold ArcDiagramData.from_list at 1.
    rewrite Htruthy, Hstring, Hiterable. reflexivity.
  - intros d -> Hd. rewrite from_list_of_list.
    destruct d as [|entry d]; [contradiction|]. reflexivity.
  - intros Hfalsy. split.
    + unfold ArcDiagramData.from_list. now rewrite Hfalsy.
    + rewrite from_list_of_list. cbn [ArcDiagramData.coerce_all].
      destruct (coerce value); reflexivity.
Qed.

End PointFurther.

(** * Closed examples of the further properties *)

(** X1: a key that the original dict does not have. *)
Lemma copy_dict_key_errors_at_entry_example :
  Chart._copy_dict_key same_keys 1 "title" [("chart", PDict [])] PNone true []
  = Some (Raise KeyError)
  /\ Chart._copy_dict_key same_keys 1 "chart" [("chart", PDict [])] PNone true []
     = Some (Raise AttributeError).
Proof.
  destruct (copy_dict_key_errors_at_entry same_keys 0 "title" [("chart", PDict [])]
              PNone true []) as [Hmissing _].
  destruct (copy_dict_key_errors_at_entry same_keys 0 "chart" [("chart", PDict [])]
              PNone true []) as [_ Hother].
  split; [apply Hmissing; reflexivity | apply Hother; [now left | discriminate]].
Defined.

(** X2: a chart section that the other dict does not have. *)
Lemma copy_dict_key_missing_sub_tree_example :
  Chart._copy_dict_key same_keys 2 "chart"
    [("chart", PDict [("type", PStr "line")])] (PDict [("title", PStr "t")]) true []
  = Some (Raise AttributeError).
Proof.
  apply (copy_dict_key_missing_sub_tree same_keys 0 "chart"
           [("chart", PDict [("type", PStr "line")])] [("title", PStr "t")]
           "type" (PStr "line") [] true []);
    [reflexivity | reflexivity | discriminate].
Defined.

(** X3: a list of colours, with [overwrite] off, where the other dict has none. *)
Lemma copy_dict_key_list_policy_example :
  Chart._copy_dict_key same_keys 1 "colors"
    [("colors", PList [PStr "red"])] (PDict []) false []
  = Some (Ok PNone).
Proof.
  apply (copy_dict_key_list_policy same_keys 0 "colors"
           [("colors", PList [PStr "red"])] [] [PStr "red"] false []);
    reflexivity.
Defined.

(** X4: a series copied into a chart that has none. *)
Lemma copy_dict_key_series_unset_example :
  Chart._copy_dict_key same_keys 1 "series"
    [("series", PList [PDict [("name", PStr "a")]])] (PDict []) false []
  = Some (Ok (PList [PDict [("name", PStr "a")]])).
Proof.
  apply (copy_dict_key_series_unset same_keys 0
           [("series", PList [PDict [("name", PStr "a")]])] []
           [PDict [("name", PStr "a")]] false []);
    reflexivity.
Defined.

(** X5: a chart section copied over a different one, with [preserve_data] off. *)
Lemma copy_dict_key_overwrite_is_copy_example :
  Chart._copy_dict_key same_keys 2 "chart"
    [("chart", PDict [("type", PStr "line"); ("data", PList [PInt 1])])]
    (PDict [("chart", PDict [("type", PStr "bar"); ("data", PList [PInt 2])])])
    true [("preserve_data", PBool false)]
  = Some (Ok (PDict [("type", PStr "line"); ("data", PList [PInt 1])]))
  /\ PDict [("type", PStr "line"); ("data", PList [PInt 1])]
     = PDict [("type", PStr "line"); ("data", PList [PInt 1])].
Proof.
  split; [reflexivity|].
  apply (copy_dict_key_overwrite_is_copy same_keys 2 "chart"
           [("chart", PDict [("type", PStr "line"); ("data", PList [PInt 1])])]
           (PDict [("chart", PDict [("type", PStr "bar"); ("data", PList [PInt 2])])])
           (PDict [("type", PStr "line"); ("data", PList [PInt 1])])
           [("preserve_data", PBool false)]);
    reflexivity.
Defined.

(** X6: two series reconciled with one. *)
Lemma copy_dict_key_series_keeps_count_example :
  exists reconciled,
    PList [PDict [("name", PStr "a")]; PDict [("id", PInt 1)]] = PList reconciled
    /\ List.length reconciled = 2
    /\ forall original_item,
         In original_item [PDict [("name", PStr "a")]; PDict [("id", PInt 1)]] ->
         Chart.find_match same_keys original_item [PDict [("name", PStr "b")]] = None ->
         In original_item reconciled.
Proof.
  apply (copy_dict_key_series_keeps_count same_keys 3
           [("series", PList [PDict [("name", PStr "a")]; PDict [("id", PInt 1)]])]
           [("series", PList [PDict [("name", PStr "b")]])]
           [PDict [("name", PStr "a")]; PDict [("id", PInt 1)]]
           [PDict [("name", PStr "b")]] true []);
    [reflexivity | reflexivity | reflexivity | discriminate | cbn; lia | reflexivity].
Defined.

(** X7: a series with data, matched by a series of the other chart. *)
Lemma copy_dict_key_series_rebuilds_matched_example :
  exists reconciled new_item,
    PList [PDict [("name", PStr "a"); ("data", PNone)]] = PList reconciled
    /\ In (PDict new_item) reconciled
    /\ dict_keys new_item = ["name"; "data"]
    /\ forall key, key = "data" \/ key = "points" -> In key ["name"; "data"] ->
         dict_lookup key new_item = Some PNone.
Proof.
  apply (copy_dict_key_series_rebuilds_matched same_keys 3
           [("series", PList [PDict [("name", PStr "a"); ("data", PList [PInt 1; PInt 2])]])]
           [("series", PList [PDict [("name", PStr "b"); ("data", PList [PInt 7])];
                              PDict [("name", PStr "c")]])]
           [PDict [("name", PStr "a"); ("data", PList [PInt 1; PInt 2])]]
           [PDict [("name", PStr "b"); ("data", PList [PInt 7])];
            PDict [("name", PStr "c")]]
           true [] _ [("name", PStr "a"); ("data", PList [PInt 1; PInt 2])]
           (PDict [("name", PStr "b"); ("data", PList [PInt 7])]));
    [reflexivity | reflexivity | reflexivity | cbn; lia | reflexivity | now left
    | reflexivity | reflexivity].
Defined.

(** X8: a chart with only a container, written to a file. *)
Lemma to_js_literal_writes_what_it_returns_example :
  exists path,
    Ok (PStr "chart.js") = Ok path
    /\ (truthy path = true ->
        [Chart.mk_write (PStr "chart.js") "utf-8"
           "new Highcharts.chart(renderTo = 'target');"]
        = [Chart.mk_write path "utf-8" "new Highcharts.chart(renderTo = 'target');"]).
Proof.
  destruct (to_js_literal_writes_what_it_returns
              (fun _ => "") (fun _ _ => None) (fun v _ => v) (fun v => Ok v)
              (Chart.mk PNone (PStr "target") PNone PNone) (PStr "chart.js") "utf-8")
    as [Hwritten _].
  destruct (Hwritten "new Highcharts.chart(renderTo = 'target');"
              [Chart.mk_write (PStr "chart.js") "utf-8"
                 "new Highcharts.chart(renderTo = 'target');"] eq_refl)
    as [_ Hfile].
  exact (Hfile eq_refl).
Defined.

(** X9: a chart with a container, a callback and a variable name. *)
Lemma to_js_literal_joins_the_parts_example :
  ("var chart1 = new Highcharts.chart(renderTo = 'target'"
   ++ Chart.separator ++ "callback = function() {});")%string
  = (signature_prefix (fun _ => "")
       (Chart.mk (PStr "function() {}") (PStr "target") PNone (PStr "chart1"))
     ++ "new Highcharts.chart("
     ++ join Chart.separator
          (signature_parts (fun _ => "") (fun v _ => v)
             (Chart.mk (PStr "function() {}") (PStr "target") PNone (PStr "chart1"))
             "utf-8")
     ++ ");")%string.
Proof.
  apply (to_js_literal_joins_the_parts
           (fun _ => "") (fun _ _ => None) (fun v _ => v) (fun v => Ok v)
           (Chart.mk (PStr "function() {}") (PStr "target") PNone (PStr "chart1"))
           PNone "utf-8" _ []);
    [now left | reflexivity].
Defined.

(** X10: a string given as the server instance. *)
Lemma download_chart_refuses_other_servers_example :
  Chart.download_chart unset_chart PNone PNone PNone (PFloat 0.5)
    (PStr "https://export.highcharts.com") []
  = Raise HighchartsValueError.
Proof.
  apply (proj2 (download_chart_refuses_other_servers unset_chart PNone PNone PNone
                  (PFloat 0.5) (PStr "https://export.highcharts.com") []
                  HighchartsValueError)).
  repeat split.
Defined.

(** X11: a container assigned to a chart that has options. *)
Lemma set_container_keeps_the_rest_example :
  Chart.options (Chart.mk PNone (PStr "target") (PObj ["HighchartsOptions"] []) PNone)
  = PObj ["HighchartsOptions"] []
  /\ Chart.set_container
       (Chart.mk PNone (PStr "target") (PObj ["HighchartsOptions"] []) PNone)
       (PStr "target")
     = Ok (Chart.mk PNone (PStr "target") (PObj ["HighchartsOptions"] []) PNone).
Proof.
  destruct (set_container_keeps_the_rest
              (Chart.mk PNone PNone (PObj ["HighchartsOptions"] []) PNone)
              (PStr "target")
              (Chart.mk PNone (PStr "target") (PObj ["HighchartsOptions"] []) PNone)
              eq_refl)
    as (_ & Hoptions & _ & _ & Hagain).
  split; [exact Hoptions | exact Hagain].
Defined.

(** X12: a link constructed from its keywords. *)
Lemma validated_point_invariant_example :
  validated_point (ArcDiagramData.mk (PStr "a") (PStr "b") (PInt 3) unset_base) = true.
Proof.
  apply (proj1 (validated_point_invariant no_float init_unset)
           [("from_", PStr "a"); ("to", PStr "b"); ("weight", PInt 3)]).
  reflexivity.
Defined.

(** X13: the same link, through its untrimmed dict. *)
Lemma init_from_untrimmed_dict_example :
  ArcDiagramData.__init__ no_float init_unset
    (ArcDiagramData._get_kwargs_from_dict
       (ArcDiagramData._to_untrimmed_dict
          (ArcDiagramData.mk (PStr "a") (PStr "b") (PInt 3) unset_base)))
  = Ok (ArcDiagramData.mk (PStr "a") (PStr "b") (PInt 3) unset_base).
Proof.
  apply (init_from_untrimmed_dict no_float init_unset
           (ArcDiagramData.mk (PStr "a") (PStr "b") (PInt 3) unset_base)).
  reflexivity.
Defined.

(** X14: a link and a [None], one member each. *)
Lemma from_list_item_by_item_example :
  List.length
    [ArcDiagramData.Built (ArcDiagramData.mk (PStr "a") (PStr "b") (PInt 3) unset_base);
     ArcDiagramData.Built (ArcDiagramData.mk PNone PNone PNone unset_base)]
  = List.length [PList [PStr "a"; PStr "b"; PInt 3]; PNone].
Proof.
  destruct (from_list_item_by_item no_float (fun _ => false) (fun _ => None)
              init_unset from_no_dict [PList [PStr "a"; PStr "b"; PInt 3]; PNone])
    as (_ & Hmembers & _).
  exact (proj1 (Hmembers _ eq_refl)).
Defined.

(** X15: a single number given in place of a list. *)
Lemma from_list_wraps_what_it_is_given_example :
  ArcDiagramData.from_list no_float (fun _ => false) (fun _ => None) init_unset
    from_no_dict (PInt 5)
  = ArcDiagramData.from_list no_float (fun _ => false) (fun _ => None) init_unset
      from_no_dict (PList [PInt 5]).
Proof.
  apply (proj1 (from_list_wraps_what_it_is_given no_float (fun _ => false)
                  (fun _ => None) init_unset from_no_dict (PInt 5)));
    reflexivity.
Defined.


